(** * Session and authorization core of the identity service

    A shallow embedding of the token codec ([JWTHandler]), the revocation
    store ([TokenBlacklist]), the login, validate and logout use cases, the
    FastAPI dependencies that guard the routes and the refresh route of
    [identity-service], followed by the properties the design document
    states about them.

    Conventions of the embedding:
    - a Python [str] is a [string]; a call that may raise returns [res A]:
      [Ret a] or [Raise e];
    - [datetime] values are whole seconds since the epoch ([Z]); the two
      clock reads of one token-creation call fall in the same second, and
      the one comparison that sees the microseconds of the clock, in
      [is_token_expired], takes them as a parameter;
    - a decoded JWT payload (a Python [dict] from JSON) is a
      [gmap string JValue];
    - the third-party libraries (python-jose, passlib, uuid, pydantic) and
      the repository interfaces are type classes: every theorem holds for
      all their implementations, and a small reference implementation is
      given for the closed examples. *)

From Stdlib Require Import ZArith Lia Ascii String.
From stdpp Require Import base option strings list gmap.

Local Open Scope string_scope.
Local Open Scope list_scope.
Local Open Scope Z_scope.

(** ** Python values, exceptions and results *)

(** The exceptions the modelled code raises or catches.  [JWTError] is the
    base class of python-jose, [ExpiredSignatureError] and [JWTClaimsError]
    are its two subclasses; [Exception] stands for any other exception. *)
Inductive exn : Type :=
  | JWTError (msg : string)
  | ExpiredSignatureError (msg : string)
  | JWTClaimsError (msg : string)
  | ValueError (msg : string)
  | HTTPException (status_code : Z) (detail : string)
  | Exception (msg : string).

(** [isinstance(e, JWTError)]: what [except JWTError] catches. *)
Definition isinstance_JWTError (e : exn) : bool :=
  match e with
  | JWTError _ | ExpiredSignatureError _ | JWTClaimsError _ => true
  | _ => false
  end.

(** [isinstance(e, ValueError)]. *)
Definition isinstance_ValueError (e : exn) : bool :=
  match e with ValueError _ => true | _ => false end.

(** [isinstance(e, HTTPException)]. *)
Definition isinstance_HTTPException (e : exn) : bool :=
  match e with HTTPException _ _ => true | _ => false end.

(** [str(e)]. *)
Definition exn_str (e : exn) : string :=
  match e with
  | JWTError m | ExpiredSignatureError m | JWTClaimsError m
  | ValueError m | Exception m => m
  | HTTPException c d => d
  end.

Inductive res (A : Type) : Type :=
  | Ret (a : A)
  | Raise (e : exn).
Arguments Ret {A} a.
Arguments Raise {A} e.

Global Instance res_ret : MRet res := @Ret.
Global Instance res_bind : MBind res := λ A B f m,
  match m with Ret a => f a | Raise e => Raise e end.

Definition is_Ret {A} (r : res A) : bool :=
  match r with Ret _ => true | Raise _ => false end.

(** JSON values found in a token payload. *)
Inductive JValue : Type :=
  | JNull
  | JBool (b : bool)
  | JInt (n : Z)
  | JStr (s : string)
  | JArr (l : list string).

Global Instance JValue_eq_dec : EqDecision JValue.
Proof. solve_decision. Defined.

Abbreviation Payload := (gmap string JValue).

(** Python truthiness of a value obtained with [payload.get(key)]:
    a missing key gives [None]. *)
Definition truthy (v : option JValue) : bool :=
  match v with
  | None | Some JNull => false
  | Some (JBool b) => b
  | Some (JInt n) => negb (bool_decide (n = 0))
  | Some (JStr s) => negb (bool_decide (s = EmptyString))
  | Some (JArr l) => negb (bool_decide (l = []))
  end.

(** Truthiness of an [Optional[Dict]]: [None] and the empty dict are falsy. *)
Definition truthy_dict (o : option Payload) : bool :=
  match o with
  | None => false
  | Some p => negb (bool_decide (p = ∅))
  end.

(** HTTP status codes used by the routes. *)
Definition HTTP_401_UNAUTHORIZED : Z := 401.
Definition HTTP_403_FORBIDDEN : Z := 403.
Definition HTTP_400_BAD_REQUEST : Z := 400.
Definition HTTP_500_INTERNAL_SERVER_ERROR : Z := 500.

(** ** Library interfaces *)

(** python-jose: [jwt.encode(payload, key, algorithm=alg)] and
    [jwt.decode(token, key, algorithms=algs)], the latter read at clock
    time [now]. *)
Class Jose : Type := {
  jwt_encode : Payload → string → string → string;
  jwt_decode : string → string → list string → Z → res Payload
}.

(** passlib: [CryptContext.verify(secret, hash)]. *)
Class PasswordContext : Type := {
  pwd_verify : string → string → res bool
}.

(** The [uuid] module: [UUID(hex)] raises on a string that is not a UUID,
    [str(u)] is its canonical form, which is not empty and parses back. *)
Class UuidLib : Type := {
  uuid : Type;
  uuid_eq_dec :: EqDecision uuid;
  UUID : string → res uuid;
  uuid_str : uuid → string;
  UUID_uuid_str : ∀ u, UUID (uuid_str u) = Ret u;
  uuid_str_nonempty : ∀ u, uuid_str u ≠ EmptyString
}.

(** pydantic field validation, as far as both major versions agree:
    an [Optional[str]] field takes [None] and strings as they are, a
    [bool] field takes booleans as they are.  An [EmailStr] field checks
    the address with the email-validator package: it raises a
    [ValidationError] on an address the package refuses and holds the
    normalized address otherwise. *)
Class Pydantic : Type := {
  validate_optional_str : option JValue → res (option string);
  validate_bool : JValue → res bool;
  validate_email_str : string → res string;
  validate_optional_str_None : validate_optional_str None = Ret None;
  validate_optional_str_JStr : ∀ s, validate_optional_str (Some (JStr s)) = Ret (Some s);
  validate_bool_JBool : ∀ b, validate_bool (JBool b) = Ret b
}.

(** ** infrastructure/security/jwt_handler.py *)

Module JWTHandler.

Record t : Type := {
  secret_key : string;
  algorithm : string;
  access_token_expire_minutes : Z;
  refresh_token_expire_days : Z
}.

(** [timedelta(minutes=m)] and [timedelta(days=d)] in seconds. *)
Definition timedelta_minutes (m : Z) : Z := 60 * m.
Definition timedelta_days (d : Z) : Z := 86400 * d.

Section methods.
Context `{Jose}.

(** The dictionary [create_access_token] signs. *)
Definition access_payload (self : t) (now : Z)
    (user_id username email : string) (is_superuser : bool)
    (role : string) (roles : option (list string)) : Payload :=
  let expire := now + timedelta_minutes (access_token_expire_minutes self) in
  <["sub" := JStr user_id]>
  (<["username" := JStr username]>
  (<["email" := JStr email]>
  (<["is_superuser" := JBool is_superuser]>
  (<["role" := JStr role]>
  (<["roles" := JArr (match roles with
                      | Some ((_ :: _) as l) => l
                      | _ => [role]
                      end)]>
  (<["type" := JStr "access"]>
  (<["exp" := JInt expire]>
  (<["iat" := JInt now]> ∅)))))))).

Definition create_access_token (self : t) (now : Z)
    (user_id username email : string) (is_superuser : bool)
    (role : string) (roles : option (list string)) : string :=
  jwt_encode (access_payload self now user_id username email is_superuser role roles)
             (secret_key self) (algorithm self).

(** The dictionary [create_refresh_token] signs. *)
Definition refresh_payload (self : t) (now : Z) (user_id : string) : Payload :=
  let expire := now + timedelta_days (refresh_token_expire_days self) in
  <["sub" := JStr user_id]>
  (<["type" := JStr "refresh"]>
  (<["exp" := JInt expire]>
  (<["iat" := JInt now]> ∅))).

Definition create_refresh_token (self : t) (now : Z) (user_id : string) : string :=
  jwt_encode (refresh_payload self now user_id) (secret_key self) (algorithm self).

(** [try: return jwt.decode(...) except JWTError: return None]. *)
Definition decode_token (self : t) (token : string) (now : Z) : res (option Payload) :=
  match jwt_decode token (secret_key self) [algorithm self] now with
  | Ret payload => Ret (Some payload)
  | Raise e => if isinstance_JWTError e then Ret None else Raise e
  end.

Definition verify_token (self : t) (token : string) (token_type : string) (now : Z)
    : res (option Payload) :=
  payload ← decode_token self token now;
  if negb (truthy_dict payload) then Ret None
  else match payload with
       | None => Ret None
       | Some p =>
           if bool_decide (p !! "type" ≠ Some (JStr token_type)) then Ret None
           else Ret (Some p)
       end.

End methods.
End JWTHandler.

(** ** infrastructure/security/token_blacklist.py *)

Module TokenBlacklist.

Record t : Type := {
  _blacklist : gset string;
  _cleanup_interval : Z;
  _last_cleanup : Z
}.

(** [TokenBlacklist()], constructed at clock time [now]. *)
Definition init (now : Z) : t :=
  {| _blacklist := ∅; _cleanup_interval := 3600; _last_cleanup := now |}.

(** The periodic hook: it only moves [_last_cleanup]. *)
Definition _auto_cleanup (self : t) (now : Z) : t :=
  if bool_decide (now - _last_cleanup self > _cleanup_interval self)
  then {| _blacklist := _blacklist self;
          _cleanup_interval := _cleanup_interval self;
          _last_cleanup := now |}
  else self.

Definition add_token (self : t) (token : string) (now : Z) : t :=
  _auto_cleanup
    {| _blacklist := {[token]} ∪ _blacklist self;
       _cleanup_interval := _cleanup_interval self;
       _last_cleanup := _last_cleanup self |} now.

Definition is_blacklisted (self : t) (token : string) : bool :=
  bool_decide (token ∈ _blacklist self).

(** Returns the flag and the store after the call. *)
Definition remove_token (self : t) (token : string) : bool * t :=
  if bool_decide (token ∈ _blacklist self)
  then (true, {| _blacklist := _blacklist self ∖ {[token]};
                 _cleanup_interval := _cleanup_interval self;
                 _last_cleanup := _last_cleanup self |})
  else (false, self).

Definition clear (self : t) : t :=
  {| _blacklist := ∅;
     _cleanup_interval := _cleanup_interval self;
     _last_cleanup := _last_cleanup self |}.

Definition size (self : t) : nat := size (_blacklist self).

(** The module-level singleton: [None] until the first
    [get_token_blacklist()], which creates it. *)
Definition get_token_blacklist (instance : option t) (now : Z) : t * option t :=
  match instance with
  | None => let b := init now in (b, Some b)
  | Some b => (b, Some b)
  end.

End TokenBlacklist.

(** ** domain/entities *)

Module Role.
Section defs.
Context `{UuidLib}.
Record t : Type := {
  id : uuid;
  name : string;
  code : string;
  description : option string;
  is_active : bool;
  created_at : Z;
  updated_at : Z
}.
End defs.
End Role.

Module User.
Section defs.
Context `{UuidLib}.
Record t : Type := {
  id : uuid;
  national_id_number : string;
  full_name : string;
  email : string;
  phone : string;
  birth_date : Z;
  address : string;
  username : string;
  hashed_password : string;
  role_ids : list uuid;
  is_active : bool;
  is_superuser : bool;
  created_at : Z;
  updated_at : Z;
  last_login : option Z
}.

Definition update_last_login (self : t) (now : Z) : t :=
  {| id := id self;
     national_id_number := national_id_number self;
     full_name := full_name self;
     email := email self;
     phone := phone self;
     birth_date := birth_date self;
     address := address self;
     username := username self;
     hashed_password := hashed_password self;
     role_ids := role_ids self;
     is_active := is_active self;
     is_superuser := is_superuser self;
     created_at := created_at self;
     updated_at := now;
     last_login := Some now |}.
End defs.
End User.

(** ** application/dto *)

Module LoginRequest.
Record t : Type := { identifier : string; password : string }.
End LoginRequest.

Module UserResponse.
Section defs.
Context `{UuidLib}.
Record t : Type := {
  id : uuid;
  national_id_number : string;
  full_name : string;
  email : string;
  phone : string;
  birth_date : Z;
  address : string;
  role : string;
  roles : option (list string);
  username : string;
  is_active : bool;
  is_superuser : bool;
  created_at : Z;
  updated_at : Z;
  last_login : option Z
}.
End defs.
End UserResponse.

Module TokenResponse.
Section defs.
Context `{UuidLib}.
Record t : Type := {
  access_token : string;
  refresh_token : string;
  token_type : string;
  expires_in : Z;
  user : UserResponse.t
}.
End defs.
End TokenResponse.

Module TokenValidationResponse.
Section defs.
Context `{UuidLib}.
Record t : Type := {
  valid : bool;
  user_id : option uuid;
  username : option string;
  email : option string;
  is_superuser : bool;
  message : option string
}.

(** [TokenValidationResponse(valid=False, message=m)]: the other
    fields take their defaults. *)
Definition invalid (m : string) : t :=
  {| valid := false; user_id := None; username := None; email := None;
     is_superuser := false; message := Some m |}.
End defs.
End TokenValidationResponse.

(** ** domain/repositories: the persistence collaborator

    [UserRepository] and [RoleRepository] are abstract base classes; the use
    cases only see their methods.  A lookup reads the database state, an
    update may change it. *)
Class Repositories `{UuidLib} : Type := {
  DB : Type;
  get_by_email : string → DB → res (option User.t);
  get_by_username : string → DB → res (option User.t);
  get_by_id : option JValue → DB → res (option User.t);
  update : User.t → DB → res User.t * DB;
  get_user_roles : uuid → DB → res (list Role.t)
}.

(** ** Stateful calls: a state and exception monad *)

Definition StateRes (S A : Type) : Type := S → res A * S.

Global Instance StateRes_ret {S} : MRet (StateRes S) := λ A a s, (Ret a, s).
Global Instance StateRes_bind {S} : MBind (StateRes S) := λ A B f m s,
  match m s with
  | (Ret a, s') => f a s'
  | (Raise e, s') => (Raise e, s')
  end.

Definition raise {S A} (e : exn) : StateRes S A := λ s, (Raise e, s).
(** A call that only reads the state. *)
Definition reading {S A} (f : S → res A) : StateRes S A := λ s, (f s, s).
(** A call that does not touch the state. *)
Definition pure_call {S A} (r : res A) : StateRes S A := λ s, (r, s).
(** [try: body except <filter>: handler]. *)
Definition try_except {S A} (body : StateRes S A) (handler : exn → StateRes S A)
    : StateRes S A := λ s,
  match body s with
  | (Ret a, s') => (Ret a, s')
  | (Raise e, s') => handler e s'
  end.

(** ** application/use_cases/login_user.py *)

Module LoginUserUseCase.
Section defs.
Context `{Jose} `{PasswordContext} `{Pydantic} `{Repositories}.

(** The local [primary_role] of [execute]. *)
Definition primary_role (is_superuser : bool) (user_roles : list Role.t) : string :=
  if is_superuser then "RRHH"
  else if negb (bool_decide (user_roles = [])) then
    let active_roles := List.filter Role.is_active user_roles in
    match active_roles with
    | r :: _ => Role.code r
    | [] => "USER"
    end
  else "USER".

(** The local [role_codes] of [execute], after its two [append]s. *)
Definition role_codes (is_superuser : bool) (user_roles : list Role.t) : list string :=
  let role_codes := List.map Role.code (List.filter Role.is_active user_roles) in
  let role_codes :=
    if is_superuser && negb (bool_decide ("RRHH" ∈ role_codes))
    then role_codes ++ ["RRHH"] else role_codes in
  if bool_decide (role_codes = []) then role_codes ++ ["USER"] else role_codes.

Definition execute (jwt_handler : JWTHandler.t) (request : LoginRequest.t) (now : Z)
    : StateRes DB TokenResponse.t :=
  user ← reading (get_by_email (LoginRequest.identifier request));
  user ← match user with
         | None => reading (get_by_username (LoginRequest.identifier request))
         | Some _ => mret user
         end;
  match user with
  | None => raise (ValueError "Invalid credentials")
  | Some user =>
    if negb (User.is_active user) then raise (ValueError "Account is inactive")
    else
      ok ← pure_call (pwd_verify (LoginRequest.password request)
                                 (User.hashed_password user));
      if negb ok then raise (ValueError "Invalid credentials")
      else
        let user := User.update_last_login user now in
        _ ← update user;
        user_roles ← reading (get_user_roles (User.id user));
        let primary_role := primary_role (User.is_superuser user) user_roles in
        let role_codes := role_codes (User.is_superuser user) user_roles in
        let access_token :=
          JWTHandler.create_access_token jwt_handler now
            (uuid_str (User.id user)) (User.username user) (User.email user)
            (User.is_superuser user) primary_role (Some role_codes) in
        let refresh_token :=
          JWTHandler.create_refresh_token jwt_handler now (uuid_str (User.id user)) in
        email ← pure_call (validate_email_str (User.email user));
        let user_response :=
          {| UserResponse.id := User.id user;
             UserResponse.national_id_number := User.national_id_number user;
             UserResponse.full_name := User.full_name user;
             UserResponse.email := email;
             UserResponse.phone := User.phone user;
             UserResponse.birth_date := User.birth_date user;
             UserResponse.address := User.address user;
             UserResponse.role := primary_role;
             UserResponse.roles := None;
             UserResponse.username := User.username user;
             UserResponse.is_active := User.is_active user;
             UserResponse.is_superuser := User.is_superuser user;
             UserResponse.created_at := User.created_at user;
             UserResponse.updated_at := User.updated_at user;
             UserResponse.last_login := User.last_login user |} in
        mret {| TokenResponse.access_token := access_token;
                TokenResponse.refresh_token := refresh_token;
                TokenResponse.token_type := "bearer";
                TokenResponse.expires_in :=
                  JWTHandler.access_token_expire_minutes jwt_handler * 60;
                TokenResponse.user := user_response |}
  end.
End defs.
End LoginUserUseCase.

(** ** application/use_cases/validate_token.py *)

Module ValidateTokenUseCase.
Section defs.
Context `{Jose} `{UuidLib} `{Pydantic}.

(** [UUID(user_id)] on a value taken from the payload: only a string
    can be parsed. *)
Definition UUID_of (user_id : option JValue) : res uuid :=
  match user_id with
  | Some (JStr s) => UUID s
  | _ => Raise (Exception "UUID: a hexadecimal string is required")
  end.

(** The body of the [try] block. *)
Definition execute_try (jwt_handler : JWTHandler.t) (token : string) (now : Z)
    : res TokenValidationResponse.t :=
  payload ← JWTHandler.decode_token jwt_handler token now;
  if negb (truthy_dict payload) then
    Ret (TokenValidationResponse.invalid "Invalid or expired token")
  else
    let payload := default ∅ payload in
    let user_id := payload !! "sub" in
    let username := payload !! "username" in
    let email := payload !! "email" in
    let is_superuser := default (JBool false) (payload !! "is_superuser") in
    if negb (truthy user_id) then
      Ret (TokenValidationResponse.invalid "Invalid token payload")
    else
      uid ← UUID_of user_id;
      username ← validate_optional_str username;
      email ← validate_optional_str email;
      is_superuser ← validate_bool is_superuser;
      Ret {| TokenValidationResponse.valid := true;
             TokenValidationResponse.user_id := Some uid;
             TokenValidationResponse.username := username;
             TokenValidationResponse.email := email;
             TokenValidationResponse.is_superuser := is_superuser;
             TokenValidationResponse.message := Some "Token is valid" |}.

(** [execute]: the [try] block under [except Exception as e]. *)
Definition execute (jwt_handler : JWTHandler.t) (token : string) (now : Z)
    : res TokenValidationResponse.t :=
  match execute_try jwt_handler token now with
  | Ret r => Ret r
  | Raise e =>
      Ret (TokenValidationResponse.invalid ("Token validation failed: " +:+ exn_str e))
  end.
End defs.
End ValidateTokenUseCase.

(** ** application/use_cases/logout_user.py *)

Module LogoutUserUseCase.

(** [user_id] is whatever [current_user.get("sub")] gave. *)
Definition execute (token_blacklist : TokenBlacklist.t)
    (access_token : string) (user_id : option JValue) (now : Z)
    : res (gmap string JValue) * TokenBlacklist.t :=
  if bool_decide (access_token = EmptyString) then
    (Raise (ValueError "Access token must be a non-empty string"), token_blacklist)
  else
    match user_id with
    | Some (JStr uid) =>
        if bool_decide (uid = EmptyString) then
          (Raise (ValueError "User ID must be a non-empty string"), token_blacklist)
        else
          (Ret (<["message" := JStr "Successfully logged out"]>
                (<["user_id" := JStr uid]>
                (<["detail" := JStr "Token has been invalidated. Please discard your tokens."]>
                 ∅))),
           TokenBlacklist.add_token token_blacklist access_token now)
    | _ => (Raise (ValueError "User ID must be a non-empty string"), token_blacklist)
    end.

End LogoutUserUseCase.

(** ** config/settings.py *)

Module Settings.
Record t : Type := {
  SECRET_KEY : string;
  ALGORITHM : string;
  ACCESS_TOKEN_EXPIRE_MINUTES : Z;
  REFRESH_TOKEN_EXPIRE_DAYS : Z
}.

Definition defaults : t :=
  {| SECRET_KEY := "your-secret-key-change-this-in-production";
     ALGORITHM := "HS256";
     ACCESS_TOKEN_EXPIRE_MINUTES := 30;
     REFRESH_TOKEN_EXPIRE_DAYS := 7 |}.
End Settings.

(** ** infrastructure/api/dependencies.py *)

Module dependencies.

Definition get_jwt_handler (settings : Settings.t) : JWTHandler.t :=
  {| JWTHandler.secret_key := Settings.SECRET_KEY settings;
     JWTHandler.algorithm := Settings.ALGORITHM settings;
     JWTHandler.access_token_expire_minutes := Settings.ACCESS_TOKEN_EXPIRE_MINUTES settings;
     JWTHandler.refresh_token_expire_days := Settings.REFRESH_TOKEN_EXPIRE_DAYS settings |}.

Section defs.
Context `{Jose}.

(** [credentials] is the bearer token of the request. *)
Definition get_current_user (credentials : string) (jwt_handler : JWTHandler.t)
    (blacklist : TokenBlacklist.t) (now : Z) : res Payload :=
  let token := credentials in
  if TokenBlacklist.is_blacklisted blacklist token then
    Raise (HTTPException HTTP_401_UNAUTHORIZED "Token has been revoked")
  else
    payload ← JWTHandler.verify_token jwt_handler token "access" now;
    match payload with
    | Some p =>
        if negb (truthy_dict payload) then
          Raise (HTTPException HTTP_401_UNAUTHORIZED "Invalid or expired token")
        else Ret p
    | None => Raise (HTTPException HTTP_401_UNAUTHORIZED "Invalid or expired token")
    end.
End defs.

Definition get_current_superuser (current_user : Payload) : res Payload :=
  if negb (truthy (Some (default (JBool false) (current_user !! "is_superuser")))) then
    Raise (HTTPException HTTP_403_FORBIDDEN "Not enough permissions")
  else Ret current_user.

Definition get_current_rrhh_user (current_user : Payload) : res Payload :=
  if bool_decide (current_user !! "role" ≠ Some (JStr "RRHH")) then
    Raise (HTTPException HTTP_403_FORBIDDEN
             "Only users with RRHH role can perform this action")
  else Ret current_user.

End dependencies.

(** ** infrastructure/api/routes.py *)

Module routes.
Section defs.
Context `{Jose} `{PasswordContext} `{Pydantic} `{Repositories}.

(** [except Exception as e: raise HTTPException(500, ...)]. *)
Definition internal_server_error {S A} (e : exn) : StateRes S A :=
  raise (HTTPException HTTP_500_INTERNAL_SERVER_ERROR
           ("Internal server error: " +:+ exn_str e)).

Definition login (request : LoginRequest.t) (jwt_handler : JWTHandler.t) (now : Z)
    : StateRes DB TokenResponse.t :=
  try_except (LoginUserUseCase.execute jwt_handler request now)
    (λ e, if isinstance_ValueError e
          then raise (HTTPException HTTP_401_UNAUTHORIZED (exn_str e))
          else internal_server_error e).

(** The local [primary_role] of [refresh_token]. *)
Definition primary_role (is_superuser : bool) (user_roles : list Role.t) : string :=
  if is_superuser then "RRHH"
  else if negb (bool_decide (user_roles = [])) then
    let active_roles := List.filter Role.is_active user_roles in
    match active_roles with
    | r :: _ => Role.code r
    | [] => "USER"
    end
  else "USER".

(** The local [role_codes] of [refresh_token], after its two [append]s. *)
Definition role_codes (is_superuser : bool) (user_roles : list Role.t) : list string :=
  let role_codes := List.map Role.code (List.filter Role.is_active user_roles) in
  let role_codes :=
    if is_superuser && negb (bool_decide ("RRHH" ∈ role_codes))
    then role_codes ++ ["RRHH"] else role_codes in
  if bool_decide (role_codes = []) then role_codes ++ ["USER"] else role_codes.

(** [request] is the [refresh_token] field of the request body. *)
Definition refresh_token (request : string) (jwt_handler : JWTHandler.t) (now : Z)
    : StateRes DB TokenResponse.t :=
  try_except
    (payload ← pure_call (JWTHandler.verify_token jwt_handler request "refresh" now);
     if negb (truthy_dict payload) then
       raise (HTTPException HTTP_401_UNAUTHORIZED "Invalid or expired refresh token")
     else
       let user_id := default ∅ payload !! "sub" in
       user ← reading (get_by_id user_id);
       match user with
       | None => raise (HTTPException HTTP_401_UNAUTHORIZED "User not found")
       | Some user =>
         if negb (User.is_active user) then
           raise (HTTPException HTTP_401_UNAUTHORIZED "User account is inactive")
         else
           user_roles ← reading (get_user_roles (User.id user));
           let primary_role := primary_role (User.is_superuser user) user_roles in
           let role_codes := role_codes (User.is_superuser user) user_roles in
           let access_token :=
             JWTHandler.create_access_token jwt_handler now
               (uuid_str (User.id user)) (User.username user) (User.email user)
               (User.is_superuser user) primary_role (Some role_codes) in
           let new_refresh_token :=
             JWTHandler.create_refresh_token jwt_handler now (uuid_str (User.id user)) in
           email ← pure_call (validate_email_str (User.email user));
           mret {| TokenResponse.access_token := access_token;
                   TokenResponse.refresh_token := new_refresh_token;
                   TokenResponse.token_type := "bearer";
                   TokenResponse.expires_in :=
                     JWTHandler.access_token_expire_minutes jwt_handler * 60;
                   TokenResponse.user :=
                     {| UserResponse.id := User.id user;
                        UserResponse.national_id_number := User.national_id_number user;
                        UserResponse.full_name := User.full_name user;
                        UserResponse.email := email;
                        UserResponse.phone := User.phone user;
                        UserResponse.birth_date := User.birth_date user;
                        UserResponse.address := User.address user;
                        UserResponse.role := primary_role;
                        UserResponse.roles := Some role_codes;
                        UserResponse.username := User.username user;
                        UserResponse.is_active := User.is_active user;
                        UserResponse.is_superuser := User.is_superuser user;
                        UserResponse.created_at := User.created_at user;
                        UserResponse.updated_at := User.updated_at user;
                        UserResponse.last_login := User.last_login user |} |}
       end)
    (λ e, if isinstance_HTTPException e then raise e else internal_server_error e).

(** The use case holds the blacklist the dependency injected. *)
Definition logout (credentials : string) (current_user : Payload) (now : Z)
    : StateRes TokenBlacklist.t (gmap string JValue) :=
  try_except
    (λ blacklist,
       let token := credentials in
       let user_id := current_user !! "sub" in
       LogoutUserUseCase.execute blacklist token user_id now)
    (λ e, if isinstance_ValueError e
          then raise (HTTPException HTTP_400_BAD_REQUEST (exn_str e))
          else internal_server_error e).

Definition validate_token (request : string) (jwt_handler : JWTHandler.t) (now : Z)
    : res TokenValidationResponse.t :=
  match ValidateTokenUseCase.execute jwt_handler request now with
  | Ret r => Ret r
  | Raise e => Raise (HTTPException HTTP_500_INTERNAL_SERVER_ERROR
                        ("Internal server error: " +:+ exn_str e))
  end.
End defs.
End routes.

(** ** The running service

    The state the endpoints share is the database and the module-level
    blacklist singleton.  Each endpoint below is its route function with
    the dependencies resolved as its [Depends(...)] parameters declare. *)

Module app.
Section defs.
Context `{Jose} `{PasswordContext} `{Pydantic} `{Repositories}.

Record World : Type := {
  db : DB;
  _token_blacklist_instance : option TokenBlacklist.t
}.

Definition with_db (w : World) (d : DB) : World :=
  {| db := d; _token_blacklist_instance := _token_blacklist_instance w |}.

Definition with_blacklist (w : World) (b : option TokenBlacklist.t) : World :=
  {| db := db w; _token_blacklist_instance := b |}.

(** A route that only depends on the repositories. *)
Definition on_db {A} (m : StateRes DB A) : StateRes World A := λ w,
  let '(r, d) := m (db w) in (r, with_db w d).

(** [Depends(get_blacklist)]. *)
Definition get_blacklist (now : Z) : StateRes World TokenBlacklist.t := λ w,
  let '(b, inst) := TokenBlacklist.get_token_blacklist (_token_blacklist_instance w) now in
  (Ret b, with_blacklist w inst).

(** A call on the blacklist object: the object is the singleton, so
    what the call does to it is what the singleton becomes. *)
Definition on_blacklist {A} (blacklist : TokenBlacklist.t)
    (m : StateRes TokenBlacklist.t A) : StateRes World A := λ w,
  let '(r, b) := m blacklist in (r, with_blacklist w (Some b)).

(** [Depends(get_current_user)] on a request carrying [credentials]. *)
Definition current_user (settings : Settings.t) (credentials : string) (now : Z)
    : StateRes World Payload :=
  blacklist ← get_blacklist now;
  pure_call (dependencies.get_current_user credentials
               (dependencies.get_jwt_handler settings) blacklist now).

(** [Depends(get_current_rrhh_user)]. *)
Definition current_rrhh_user (settings : Settings.t) (credentials : string) (now : Z)
    : StateRes World Payload :=
  user ← current_user settings credentials now;
  pure_call (dependencies.get_current_rrhh_user user).

Definition post_auth_login (settings : Settings.t) (request : LoginRequest.t) (now : Z)
    : StateRes World TokenResponse.t :=
  on_db (routes.login request (dependencies.get_jwt_handler settings) now).

Definition post_auth_refresh (settings : Settings.t) (request : string) (now : Z)
    : StateRes World TokenResponse.t :=
  on_db (routes.refresh_token request (dependencies.get_jwt_handler settings) now).

Definition post_auth_logout (settings : Settings.t) (credentials : string) (now : Z)
    : StateRes World (gmap string JValue) :=
  user ← current_user settings credentials now;
  blacklist ← get_blacklist now;
  on_blacklist blacklist (routes.logout credentials user now).

Definition post_auth_validate (settings : Settings.t) (request : string) (now : Z)
    : StateRes World TokenValidationResponse.t :=
  pure_call (routes.validate_token request (dependencies.get_jwt_handler settings) now).
End defs.
End app.

(** ** Executable implementations of the interfaces

    One small implementation of each library interface, used to run the
    closed examples.  A token is the binary numeral (lowest bit first) of
    the code of the triple (key, algorithm, payload); a UUID is a positive
    number written the same way. *)

Module Reference.

Fixpoint pos_to_string (p : positive) : string :=
  match p with
  | xH => "1"
  | xO q => String "0"%char (pos_to_string q)
  | xI q => String "1"%char (pos_to_string q)
  end.

Fixpoint string_to_pos (s : string) : option positive :=
  match s with
  | EmptyString => None
  | String c s' =>
      match s' with
      | EmptyString => if bool_decide (c = "1"%char) then Some xH else None
      | String _ _ =>
          if bool_decide (c = "0"%char) then xO <$> string_to_pos s'
          else if bool_decide (c = "1"%char) then xI <$> string_to_pos s'
          else None
      end
  end.

Lemma pos_to_string_nonempty (p : positive) : pos_to_string p ≠ EmptyString.
Proof. destruct p; discriminate. Qed.

Lemma string_to_pos_to_string (p : positive) : string_to_pos (pos_to_string p) = Some p.
Proof.
  induction p as [q IH|q IH|]; [| |reflexivity].
  - cbn [pos_to_string string_to_pos].
    destruct (pos_to_string q) eqn:Hq; [destruct (pos_to_string_nonempty q Hq)|].
    rewrite IH. reflexivity.
  - cbn [pos_to_string string_to_pos].
    destruct (pos_to_string q) eqn:Hq; [destruct (pos_to_string_nonempty q Hq)|].
    rewrite IH. reflexivity.
Qed.

Definition JValue_to_sum (v : JValue) : unit + bool + Z + string + list string :=
  match v with
  | JNull => inl (inl (inl (inl tt)))
  | JBool b => inl (inl (inl (inr b)))
  | JInt n => inl (inl (inr n))
  | JStr s => inl (inr s)
  | JArr l => inr l
  end.

Definition JValue_of_sum (x : unit + bool + Z + string + list string) : JValue :=
  match x with
  | inl (inl (inl (inl _))) => JNull
  | inl (inl (inl (inr b))) => JBool b
  | inl (inl (inr n)) => JInt n
  | inl (inr s) => JStr s
  | inr l => JArr l
  end.

#[local] Instance JValue_countable : Countable JValue.
Proof.
  refine (inj_countable' JValue_to_sum JValue_of_sum _).
  intros []; reflexivity.
Defined.

(** A decimal numeral, with an optional sign, as [int(s)] reads it. *)
Fixpoint decimal_digits (s : string) (acc : Z) : option Z :=
  match s with
  | EmptyString => Some acc
  | String c s' =>
      let n := Z.of_nat (nat_of_ascii c) - 48 in
      if bool_decide (0 ≤ n ≤ 9) then decimal_digits s' (10 * acc + n) else None
  end.

Definition decimal (s : string) : option Z :=
  match s with
  | EmptyString => None
  | String c s' =>
      if bool_decide (c = "-"%char) then
        (if bool_decide (s' = EmptyString) then None else Z.opp <$> decimal_digits s' 0)
      else if bool_decide (c = "+"%char) then
        (if bool_decide (s' = EmptyString) then None else decimal_digits s' 0)
      else decimal_digits s 0
  end.

(** [int(claims[name])] as python-jose applies it to a time claim: a
    [ValueError] becomes a [JWTClaimsError] with the message [msg]; the
    [TypeError] of [int(None)] or [int([...])] is not caught. *)
Definition time_claim (name msg : string) (p : Payload) : res (option Z) :=
  match p !! name with
  | None => Ret None
  | Some (JInt n) => Ret (Some n)
  | Some (JBool b) => Ret (Some (if b then 1 else 0))
  | Some (JStr s) =>
      match decimal s with
      | Some n => Ret (Some n)
      | None => Raise (JWTClaimsError msg)
      end
  | Some JNull =>
      Raise (Exception "int() argument must be a string, a bytes-like object or a real number, not 'NoneType'")
  | Some (JArr _) =>
      Raise (Exception "int() argument must be a string, a bytes-like object or a real number, not 'list'")
  end.

(** A claim that must be a string when it is there. *)
Definition string_claim (name msg : string) (p : Payload) : res unit :=
  match p !! name with
  | None | Some (JStr _) => Ret tt
  | Some _ => Raise (JWTClaimsError msg)
  end.

(** The registered claims python-jose checks, in its order, when no
    audience, issuer, subject or access token is passed to [jwt.decode]:
    [iat], [nbf], [exp], [aud], [sub], [jti], [at_hash]. *)
Definition validate_claims (p : Payload) (now : Z) : res Payload :=
  _ ← time_claim "iat" "Issued At claim (iat) must be an integer." p;
  nbf ← time_claim "nbf" "Not Before claim (nbf) must be an integer." p;
  if match nbf with Some n => bool_decide (n > now) | None => false end then
    Raise (JWTClaimsError "The token is not yet valid (nbf)")
  else
    exp ← time_claim "exp" "Expiration Time claim (exp) must be an integer." p;
    if match exp with Some e => bool_decide (e < now) | None => false end then
      Raise (ExpiredSignatureError "Signature has expired.")
    else
      match p !! "aud" with
      | Some (JStr _) | Some (JArr _) => Raise (JWTClaimsError "Invalid audience")
      | Some _ => Raise (JWTClaimsError "Invalid claim format in token")
      | None =>
          _ ← string_claim "sub" "Subject must be a string." p;
          _ ← string_claim "jti" "JWT ID must be a string." p;
          match p !! "at_hash" with
          | Some _ =>
              Raise (JWTClaimsError
                       "No access_token provided to compare against at_hash claim.")
          | None => Ret p
          end
      end.

Definition jose_encode (p : Payload) (key alg : string) : string :=
  pos_to_string (encode (key, alg, p)).

Definition jose_decode (token key : string) (algorithms : list string) (now : Z)
    : res Payload :=
  match string_to_pos token ≫= decode (A := string * string * Payload) with
  | None => Raise (JWTError "Not enough segments")
  | Some (k, a, p) =>
      if bool_decide (a ∈ algorithms) then
        if bool_decide (k = key) then validate_claims p now
        else Raise (JWTError "Signature verification failed.")
      else Raise (JWTError "The specified alg value is not allowed")
  end.

Definition jose : Jose :=
  {| jwt_encode := jose_encode; jwt_decode := jose_decode |}.

Definition passlib : PasswordContext :=
  {| pwd_verify secret hash := Ret (bool_decide (hash = "hashed:" +:+ secret)) |}.

Definition parse_uuid (s : string) : res positive :=
  match string_to_pos s with
  | Some u => Ret u
  | None => Raise (ValueError "badly formed hexadecimal UUID string")
  end.

Lemma parse_uuid_to_string (u : positive) : parse_uuid (pos_to_string u) = Ret u.
Proof. unfold parse_uuid. rewrite string_to_pos_to_string. reflexivity. Qed.

Definition uuidlib : UuidLib :=
  {| uuid := positive;
     UUID := parse_uuid;
     uuid_str := pos_to_string;
     UUID_uuid_str := parse_uuid_to_string;
     uuid_str_nonempty := pos_to_string_nonempty |}.

(** The address check of the executable implementation. *)
Fixpoint has_at (s : string) : bool :=
  match s with
  | EmptyString => false
  | String c s' => bool_decide (c = "@"%char) || has_at s'
  end.

Fixpoint ends_with (suffix s : string) : bool :=
  bool_decide (s = suffix)
  || match s with
     | EmptyString => false
     | String _ s' => ends_with suffix s'
     end.

Definition lower (c : ascii) : ascii :=
  let n := nat_of_ascii c in
  if (Nat.leb 65 n && Nat.leb n 90)%bool then ascii_of_nat (n + 32) else c.

Fixpoint lower_all (s : string) : string :=
  match s with
  | EmptyString => EmptyString
  | String c s' => String (lower c) (lower_all s')
  end.

(** The normal form of an address: the domain in lower case. *)
Fixpoint normalized (s : string) : string :=
  match s with
  | EmptyString => EmptyString
  | String c s' =>
      if bool_decide (c = "@"%char) then String c (lower_all s')
      else String c (normalized s')
  end.

(** An address needs an "@" and a domain that is not on the reserved
    [.local]; the validated value is the normal form. *)
Definition validate_email (s : string) : res string :=
  if has_at s && negb (ends_with ".local" (normalized s)) then Ret (normalized s)
  else Raise (ValueError "value is not a valid email address").

Definition pydantic : Pydantic :=
  {| validate_optional_str v :=
       match v with
       | None | Some JNull => Ret None
       | Some (JStr s) => Ret (Some s)
       | Some _ => Raise (Exception "Input should be a valid string")
       end;
     validate_bool v :=
       match v with
       | JBool b => Ret b
       | _ => Raise (Exception "Input should be a valid boolean")
       end;
     validate_email_str := validate_email;
     validate_optional_str_None := eq_refl;
     validate_optional_str_JStr := λ _, eq_refl;
     validate_bool_JBool := λ _, eq_refl |}.

(** A database: the users and, for each user id, the roles assigned. *)
Record Database : Type := {
  users : list (@User.t uuidlib);
  assigned : list (positive * list (@Role.t uuidlib))
}.

Definition find_user (f : @User.t uuidlib → bool) (d : Database) : option (@User.t uuidlib) :=
  List.find f (users d).

Definition repo_get_by_id (user_id : option JValue) (d : Database)
    : res (option (@User.t uuidlib)) :=
  match user_id with
  | None => Raise (Exception "one of the hex, bytes, bytes_le, fields, or int arguments must be given")
  | Some (JStr s) =>
      match parse_uuid s with
      | Ret u => Ret (find_user (λ x, bool_decide (User.id x = u)) d)
      | Raise _ => Ret None
      end
  | Some _ => Ret None
  end.

Definition repo_update (u : @User.t uuidlib) (d : Database)
    : res (@User.t uuidlib) * Database :=
  if existsb (λ x, bool_decide (User.national_id_number x = User.national_id_number u)) (users d)
  then (Ret u,
        {| users := List.map (λ x, if bool_decide (User.national_id_number x
                                                   = User.national_id_number u)
                                   then u else x) (users d);
           assigned := assigned d |})
  else (Raise (ValueError ("User with national_id_number "
                           +:+ User.national_id_number u +:+ " not found")), d).

Definition repo_get_user_roles (user_id : positive) (d : Database)
    : res (list (@Role.t uuidlib)) :=
  Ret (default [] (snd <$> List.find (λ x, bool_decide (fst x = user_id)) (assigned d))).

Definition repositories : @Repositories uuidlib :=
  {| DB := Database;
     get_by_email e d := Ret (find_user (λ x, bool_decide (User.email x = e)) d);
     get_by_username n d := Ret (find_user (λ x, bool_decide (User.username x = n)) d);
     get_by_id := repo_get_by_id;
     update := repo_update;
     get_user_roles := repo_get_user_roles |}.

End Reference.

(** * Properties *)

(** ** The revocation store *)

Section TokenBlacklist_facts.
Import TokenBlacklist.

Lemma auto_cleanup_blacklist (s : TokenBlacklist.t) (now : Z) :
  _blacklist (_auto_cleanup s now) = _blacklist s.
Proof. unfold _auto_cleanup. case_bool_decide; reflexivity. Qed.

Lemma auto_cleanup_interval (s : TokenBlacklist.t) (now : Z) :
  _cleanup_interval (_auto_cleanup s now) = _cleanup_interval s.
Proof. unfold _auto_cleanup. case_bool_decide; reflexivity. Qed.

Lemma add_token_blacklist (s : TokenBlacklist.t) (t : string) (now : Z) :
  _blacklist (add_token s t now) = {[t]} ∪ _blacklist s.
Proof. unfold add_token. rewrite auto_cleanup_blacklist. reflexivity. Qed.

Lemma remove_token_blacklist (s : TokenBlacklist.t) (t : string) :
  _blacklist (remove_token s t).2 = _blacklist s ∖ {[t]}.
Proof.
  unfold remove_token. case_bool_decide as Hin; simpl; [reflexivity|].
  apply set_eq. intros u. rewrite elem_of_difference, elem_of_singleton.
  split; [|tauto]. intros Hu. split; [assumption|]. intros ->. contradiction.
Qed.

Lemma remove_token_flag (s : TokenBlacklist.t) (t : string) :
  (remove_token s t).1 = is_blacklisted s t.
Proof. unfold remove_token, is_blacklisted. case_bool_decide; reflexivity. Qed.

Lemma is_blacklisted_spec (s : TokenBlacklist.t) (t : string) :
  is_blacklisted s t = true ↔ t ∈ _blacklist s.
Proof. unfold is_blacklisted. apply bool_decide_eq_true. Qed.

Lemma is_blacklisted_add (s : TokenBlacklist.t) (t u : string) (now : Z) :
  is_blacklisted (add_token s t now) u = bool_decide (u = t) || is_blacklisted s u.
Proof.
  apply eq_true_iff_eq. rewrite orb_true_iff, !is_blacklisted_spec, bool_decide_eq_true.
  rewrite add_token_blacklist. set_solver.
Qed.

Lemma is_blacklisted_remove (s : TokenBlacklist.t) (t u : string) :
  is_blacklisted (remove_token s t).2 u = is_blacklisted s u && negb (bool_decide (u = t)).
Proof.
  apply eq_true_iff_eq.
  rewrite andb_true_iff, negb_true_iff, bool_decide_eq_false, !is_blacklisted_spec.
  rewrite remove_token_blacklist. set_solver.
Qed.

Lemma size_add_fresh (s : TokenBlacklist.t) (t : string) (now : Z) :
  t ∉ _blacklist s → size (add_token s t now) = S (size s).
Proof.
  intros Hnotin. unfold size. rewrite add_token_blacklist.
  rewrite size_union by set_solver. rewrite size_singleton. reflexivity.
Qed.

Lemma size_add_present (s : TokenBlacklist.t) (t : string) (now : Z) :
  t ∈ _blacklist s → size (add_token s t now) = size s.
Proof.
  intros Hin. unfold size. rewrite add_token_blacklist.
  f_equal. apply subseteq_union_1_L, singleton_subseteq_l, Hin.
Qed.

Lemma size_remove_present (s : TokenBlacklist.t) (t : string) :
  t ∈ _blacklist s → S (size (remove_token s t).2) = size s.
Proof.
  intros Hin. unfold size. rewrite remove_token_blacklist.
  assert (Hsub : ({[t]} : gset string) ⊆ _blacklist s)
    by (apply singleton_subseteq_l, Hin).
  pose proof (size_union_alt ({[t]} : gset string) (_blacklist s)) as Hu.
  rewrite (subseteq_union_1_L _ _ Hsub), size_singleton in Hu.
  rewrite Hu. reflexivity.
Qed.

(** C8: the RevocationStore behaves as a set of token strings.  A fresh
    store has size 0; adding [t] to it gives size 1 and makes it contain
    [t]; removing [t] again reports true, gives size 0 and no longer
    contains [t]; removing an absent token reports false and leaves the
    store as it was; [clear] leaves an empty store.  In any store, the
    members after [add] are the old ones and [t], and after [remove] the old
    ones except [t]. *)
Theorem revocation_store_is_a_set (now now' : Z) (t : string) :
  let fresh := TokenBlacklist.init now in
  let added := TokenBlacklist.add_token fresh t now' in
  let removed := TokenBlacklist.remove_token added t in
  TokenBlacklist.size fresh = 0%nat
  ∧ TokenBlacklist.size added = 1%nat
  ∧ TokenBlacklist.is_blacklisted added t = true
  ∧ removed.1 = true
  ∧ TokenBlacklist.size removed.2 = 0%nat
  ∧ TokenBlacklist.is_blacklisted removed.2 t = false
  ∧ (∀ s, TokenBlacklist.is_blacklisted s t = false →
          TokenBlacklist.remove_token s t = (false, s))
  ∧ (∀ s u, TokenBlacklist.size (TokenBlacklist.clear s) = 0%nat
            ∧ TokenBlacklist.is_blacklisted (TokenBlacklist.clear s) u = false)
  ∧ (∀ s u n, TokenBlacklist.is_blacklisted (TokenBlacklist.add_token s t n) u
              = bool_decide (u = t) || TokenBlacklist.is_blacklisted s u)
  ∧ (∀ s u, TokenBlacklist.is_blacklisted (TokenBlacklist.remove_token s t).2 u
            = TokenBlacklist.is_blacklisted s u && negb (bool_decide (u = t))).
Proof.
  intros fresh added removed.
  assert (Hfresh : _blacklist fresh = ∅) by reflexivity.
  assert (Hin : t ∈ _blacklist added).
  { unfold added. rewrite add_token_blacklist. set_solver. }
  assert (Hadded : size added = 1%nat).
  { unfold added. rewrite size_add_fresh by (rewrite Hfresh; set_solver).
    unfold size. rewrite Hfresh, size_empty. reflexivity. }
  split; [unfold size; rewrite Hfresh; apply size_empty|].
  split; [exact Hadded|].
  split; [apply is_blacklisted_spec, Hin|].
  split; [unfold removed; rewrite remove_token_flag; apply is_blacklisted_spec, Hin|].
  split.
  { pose proof (size_remove_present added t Hin) as Hs. fold removed in Hs. lia. }
  split.
  { unfold removed. rewrite is_blacklisted_remove.
    rewrite bool_decide_eq_true_2 by reflexivity. apply andb_false_r. }
  split.
  { intros s Hs. unfold remove_token. unfold is_blacklisted in Hs. rewrite Hs. reflexivity. }
  split.
  { intros s u. split.
    - unfold size, clear. cbn [_blacklist]. apply size_empty.
    - unfold is_blacklisted, clear. cbn [_blacklist].
      apply bool_decide_eq_false, not_elem_of_empty. }
  split; [intros s u n; apply is_blacklisted_add|].
  intros s u. apply is_blacklisted_remove.
Qed.

(** The three facts of C8 that rest on a condition, run on stores that meet
    it: removing from the fresh store, and from a store holding another
    token. *)
Lemma revocation_store_is_a_set_witness :
  TokenBlacklist.remove_token (TokenBlacklist.init 0) "t1" = (false, TokenBlacklist.init 0)
  ∧ TokenBlacklist.remove_token (TokenBlacklist.add_token (TokenBlacklist.init 0) "t2" 5) "t1"
    = (false, TokenBlacklist.add_token (TokenBlacklist.init 0) "t2" 5).
Proof.
  pose proof (revocation_store_is_a_set 0 0 "t1") as (_ & _ & _ & _ & _ & _ & Habsent & _).
  split; apply Habsent; vm_compute; reflexivity.
Defined.

End TokenBlacklist_facts.

(** ** Role resolution *)

Section role_resolution.
Context `{UuidLib}.

(** The codes of the active roles, in the order the repository gave. *)
Definition active_codes (user_roles : list Role.t) : list string :=
  List.map Role.code (List.filter Role.is_active user_roles).

Lemma filter_nil_of_nil (user_roles : list Role.t) :
  user_roles = [] → List.filter Role.is_active user_roles = [].
Proof. intros ->. reflexivity. Qed.

Lemma primary_role_superuser (user_roles : list Role.t) :
  LoginUserUseCase.primary_role true user_roles = "RRHH".
Proof. reflexivity. Qed.

Lemma primary_role_first_active (user_roles : list Role.t) (r : Role.t) (rest : list Role.t) :
  List.filter Role.is_active user_roles = r :: rest →
  LoginUserUseCase.primary_role false user_roles = Role.code r.
Proof.
  intros Hact. unfold LoginUserUseCase.primary_role.
  case_bool_decide as Hnil; simpl.
  - rewrite (filter_nil_of_nil _ Hnil) in Hact. discriminate.
  - rewrite Hact. reflexivity.
Qed.

Lemma primary_role_no_active (user_roles : list Role.t) :
  List.filter Role.is_active user_roles = [] →
  LoginUserUseCase.primary_role false user_roles = "USER".
Proof.
  intros Hact. unfold LoginUserUseCase.primary_role.
  case_bool_decide; simpl; [reflexivity|]. rewrite Hact. reflexivity.
Qed.

Lemma role_codes_superuser (user_roles : list Role.t) :
  LoginUserUseCase.role_codes true user_roles =
    if bool_decide ("RRHH" ∈ active_codes user_roles)
    then active_codes user_roles else active_codes user_roles ++ ["RRHH"].
Proof.
  unfold LoginUserUseCase.role_codes. fold (active_codes user_roles).
  destruct (decide ("RRHH" ∈ active_codes user_roles)) as [Hin|Hnotin].
  - rewrite (bool_decide_eq_true_2 _ Hin). simpl.
    case_bool_decide as Hnil; [|reflexivity].
    rewrite Hnil in Hin. apply elem_of_nil in Hin. contradiction.
  - rewrite (bool_decide_eq_false_2 _ Hnotin). simpl.
    case_bool_decide as Hnil; [|reflexivity].
    apply app_eq_nil in Hnil as [_ Hnil]. discriminate.
Qed.

Lemma role_codes_ordinary (user_roles : list Role.t) :
  LoginUserUseCase.role_codes false user_roles =
    match active_codes user_roles with
    | [] => ["USER"]
    | _ :: _ => active_codes user_roles
    end.
Proof.
  unfold LoginUserUseCase.role_codes. fold (active_codes user_roles). simpl.
  destruct (active_codes user_roles) as [|c cs]; reflexivity.
Qed.

(** The refresh route repeats the computation of the login use case. *)
Lemma refresh_primary_role_eq (su : bool) (user_roles : list Role.t) :
  routes.primary_role su user_roles = LoginUserUseCase.primary_role su user_roles.
Proof. reflexivity. Qed.

Lemma refresh_role_codes_eq (su : bool) (user_roles : list Role.t) :
  routes.role_codes su user_roles = LoginUserUseCase.role_codes su user_roles.
Proof. reflexivity. Qed.

Lemma role_codes_nonempty (su : bool) (user_roles : list Role.t) :
  LoginUserUseCase.role_codes su user_roles ≠ [].
Proof.
  destruct su.
  - rewrite role_codes_superuser. case_bool_decide as Hin.
    + intros Hnil. rewrite Hnil in Hin. apply elem_of_nil in Hin. exact Hin.
    + intros Hnil. apply app_eq_nil in Hnil as [_ Hnil]. discriminate.
  - rewrite role_codes_ordinary.
    destruct (active_codes user_roles) as [|c cs]; discriminate.
Qed.

Lemma primary_role_in_role_codes (su : bool) (user_roles : list Role.t) :
  LoginUserUseCase.primary_role su user_roles ∈ LoginUserUseCase.role_codes su user_roles.
Proof.
  destruct su.
  - rewrite primary_role_superuser, role_codes_superuser.
    case_bool_decide as Hin; [exact Hin|].
    apply elem_of_app. right. apply list_elem_of_singleton. reflexivity.
  - rewrite role_codes_ordinary. unfold active_codes.
    destruct (List.filter Role.is_active user_roles) as [|r rest] eqn:Hact.
    + rewrite (primary_role_no_active _ Hact). simpl.
      apply list_elem_of_singleton. reflexivity.
    + rewrite (primary_role_first_active _ _ _ Hact). simpl.
      apply elem_of_cons. left. reflexivity.
Qed.

(** C6: for every superuser flag and every list of assigned roles, the role
    codes computed at login and at refresh are never empty and contain the
    primary role; a superuser with no assigned roles gets the codes
    [["RRHH"]] and the primary role ["RRHH"]. *)
Theorem role_codes_invariant (su : bool) (user_roles : list Role.t) :
  LoginUserUseCase.role_codes su user_roles ≠ []
  ∧ LoginUserUseCase.primary_role su user_roles ∈ LoginUserUseCase.role_codes su user_roles
  ∧ routes.role_codes su user_roles ≠ []
  ∧ routes.primary_role su user_roles ∈ routes.role_codes su user_roles
  ∧ LoginUserUseCase.role_codes true [] = ["RRHH"]
  ∧ LoginUserUseCase.primary_role true [] = "RRHH"
  ∧ routes.role_codes true [] = ["RRHH"]
  ∧ routes.primary_role true [] = "RRHH".
Proof.
  pose proof (role_codes_nonempty su user_roles) as Hne.
  pose proof (primary_role_in_role_codes su user_roles) as Hin.
  split; [exact Hne|]. split; [exact Hin|].
  split; [rewrite refresh_role_codes_eq; exact Hne|].
  split; [rewrite refresh_role_codes_eq, refresh_primary_role_eq; exact Hin|].
  repeat split; reflexivity.
Qed.

(** C7: role resolution follows the algorithm of the design.  A superuser
    has primary role ["RRHH"]; otherwise the primary role is the code of the
    first active role in the order supplied, when there is an active role,
    and ["USER"] when there is none.  On the three inputs of the design:
    a superuser with no roles resolves to RRHH with codes [RRHH], an
    ordinary user with the single active role MEDICO to MEDICO with codes
    [MEDICO], an ordinary user with no roles to USER with codes [USER]. *)
Theorem role_resolution_algorithm (user_roles : list Role.t) :
  LoginUserUseCase.primary_role true user_roles = "RRHH"
  ∧ LoginUserUseCase.primary_role false user_roles =
      match List.filter Role.is_active user_roles with
      | r :: _ => Role.code r
      | [] => "USER"
      end
  ∧ (LoginUserUseCase.primary_role true [], LoginUserUseCase.role_codes true [])
      = ("RRHH", ["RRHH"])
  ∧ (∀ medico : Role.t,
       (LoginUserUseCase.primary_role false [medico],
        LoginUserUseCase.role_codes false [medico])
       = if Role.is_active medico
         then (Role.code medico, [Role.code medico])
         else ("USER", ["USER"]))
  ∧ (LoginUserUseCase.primary_role false [], LoginUserUseCase.role_codes false [])
      = ("USER", ["USER"]).
Proof.
  split; [apply primary_role_superuser|].
  split.
  { destruct (List.filter Role.is_active user_roles) as [|r rest] eqn:Hact.
    - apply primary_role_no_active, Hact.
    - apply (primary_role_first_active _ _ _ Hact). }
  split; [reflexivity|].
  split; [|reflexivity].
  intros medico.
  unfold LoginUserUseCase.primary_role, LoginUserUseCase.role_codes. simpl.
  destruct (Role.is_active medico); reflexivity.
Qed.

End role_resolution.

(** ** The token codec *)

(** The registered claims [jwt.decode] checks, when called as the handler
    calls it: [exp] not in the past, [nbf] not in the future, [iat] a
    number, [sub] and [jti] strings, no [aud] and no [at_hash]. *)
Definition passes_claim_checks (p : Payload) (now : Z) : bool :=
  match p !! "exp" with
  | None => true | Some (JInt e) => bool_decide (now ≤ e) | Some _ => false
  end
  && match p !! "nbf" with
     | None => true | Some (JInt n) => bool_decide (n ≤ now) | Some _ => false
     end
  && match p !! "iat" with None | Some (JInt _) => true | Some _ => false end
  && match p !! "sub" with None | Some (JStr _) => true | Some _ => false end
  && match p !! "jti" with None | Some (JStr _) => true | Some _ => false end
  && bool_decide (p !! "aud" = None)
  && bool_decide (p !! "at_hash" = None).

(** The contract of [jwt.encode] and [jwt.decode] under one key and one
    algorithm: a payload that passes the claim checks at the time of
    decoding comes back as it was signed. *)
Definition jose_round_trip `{Jose} (key alg : string) : Prop :=
  ∀ (p : Payload) (now : Z),
    passes_claim_checks p now = true →
    jwt_decode (jwt_encode p key alg) key [alg] now = Ret p.

Section codec.
Context `{Jose}.
Implicit Types (h : JWTHandler.t) (token kind : string) (now : Z) (p : Payload).

Lemma decode_token_Some h token now p :
  JWTHandler.decode_token h token now = Ret (Some p)
  ↔ jwt_decode token (JWTHandler.secret_key h) [JWTHandler.algorithm h] now = Ret p.
Proof.
  unfold JWTHandler.decode_token.
  destruct (jwt_decode _ _ _ _) as [q|e].
  - split; intros Heq; inversion Heq; reflexivity.
  - destruct (isinstance_JWTError e); split; discriminate.
Qed.

Lemma decode_token_caught h token now e :
  jwt_decode token (JWTHandler.secret_key h) [JWTHandler.algorithm h] now = Raise e →
  isinstance_JWTError e = true →
  JWTHandler.decode_token h token now = Ret None.
Proof. intros Hdec He. unfold JWTHandler.decode_token. rewrite Hdec, He. reflexivity. Qed.

(** An exception of another class goes through [decode_token] to the
    caller. *)
Lemma decode_token_propagates h token now e :
  jwt_decode token (JWTHandler.secret_key h) [JWTHandler.algorithm h] now = Raise e →
  isinstance_JWTError e = false →
  JWTHandler.decode_token h token now = Raise e.
Proof. intros Hdec He. unfold JWTHandler.decode_token. rewrite Hdec, He. reflexivity. Qed.

Lemma truthy_dict_type p kind :
  p !! "type" = Some (JStr kind) → truthy_dict (Some p) = true.
Proof.
  intros Hty. unfold truthy_dict. apply negb_true_iff, bool_decide_eq_false.
  intros ->. rewrite lookup_empty in Hty. discriminate.
Qed.

(** [verify_token] in terms of [decode_token]: the truthiness test is
    subsumed by the kind test, since an empty payload has no kind. *)
Lemma verify_token_unfold h token kind now :
  JWTHandler.verify_token h token kind now =
    match JWTHandler.decode_token h token now with
    | Raise e => Raise e
    | Ret None => Ret None
    | Ret (Some p) =>
        if bool_decide (p !! "type" = Some (JStr kind)) then Ret (Some p) else Ret None
    end.
Proof.
  unfold JWTHandler.verify_token.
  destruct (JWTHandler.decode_token h token now) as [[p|]|e]; simpl; try reflexivity.
  destruct (decide (p !! "type" = Some (JStr kind))) as [Hty|Hty].
  - rewrite (bool_decide_eq_true_2 _ Hty).
    pose proof (truthy_dict_type _ _ Hty) as Htr. simpl in Htr. rewrite Htr. simpl.
    rewrite bool_decide_eq_false_2 by (intros Hne; exact (Hne Hty)). reflexivity.
  - rewrite (bool_decide_eq_false_2 _ Hty).
    destruct (negb (negb (bool_decide (p = ∅)))); [reflexivity|].
    rewrite (bool_decide_eq_true_2 _ Hty). reflexivity.
Qed.

Lemma verify_token_Some h token kind now p :
  JWTHandler.verify_token h token kind now = Ret (Some p)
  ↔ JWTHandler.decode_token h token now = Ret (Some p) ∧ p !! "type" = Some (JStr kind).
Proof.
  rewrite verify_token_unfold.
  destruct (JWTHandler.decode_token h token now) as [[q|]|e].
  - case_bool_decide as Hty.
    + split.
      * intros Heq. inversion Heq; subst. split; [reflexivity|exact Hty].
      * intros [Heq _]. exact Heq.
    + split; [discriminate|]. intros [Heq Hq]. inversion Heq; subst. contradiction.
  - split; [discriminate|]. intros [Heq _]. discriminate.
  - split; [discriminate|]. intros [Heq _]. discriminate.
Qed.

Lemma verify_token_truthy h token kind now p :
  JWTHandler.verify_token h token kind now = Ret (Some p) → truthy_dict (Some p) = true.
Proof. intros Hv. apply verify_token_Some in Hv as [_ Hty]. exact (truthy_dict_type _ _ Hty). Qed.

Lemma access_payload_lookup h now user_id username email (su : bool) role roles :
  let p := JWTHandler.access_payload h now user_id username email su role roles in
  p !! "sub" = Some (JStr user_id)
  ∧ p !! "username" = Some (JStr username)
  ∧ p !! "email" = Some (JStr email)
  ∧ p !! "is_superuser" = Some (JBool su)
  ∧ p !! "role" = Some (JStr role)
  ∧ p !! "roles" = Some (JArr (match roles with Some ((_ :: _) as l) => l | _ => [role] end))
  ∧ p !! "type" = Some (JStr "access")
  ∧ p !! "exp" = Some (JInt (now + 60 * JWTHandler.access_token_expire_minutes h))
  ∧ p !! "iat" = Some (JInt now)
  ∧ p !! "nbf" = None ∧ p !! "jti" = None ∧ p !! "aud" = None ∧ p !! "at_hash" = None.
Proof.
  intros p. unfold p, JWTHandler.access_payload, JWTHandler.timedelta_minutes.
  repeat split; simplify_map_eq; reflexivity.
Qed.

Lemma refresh_payload_lookup h now user_id :
  let p := JWTHandler.refresh_payload h now user_id in
  p !! "sub" = Some (JStr user_id)
  ∧ p !! "type" = Some (JStr "refresh")
  ∧ p !! "exp" = Some (JInt (now + 86400 * JWTHandler.refresh_token_expire_days h))
  ∧ p !! "iat" = Some (JInt now)
  ∧ p !! "username" = None ∧ p !! "email" = None ∧ p !! "is_superuser" = None
  ∧ p !! "role" = None ∧ p !! "roles" = None
  ∧ p !! "nbf" = None ∧ p !! "jti" = None ∧ p !! "aud" = None ∧ p !! "at_hash" = None.
Proof.
  intros p. unfold p, JWTHandler.refresh_payload, JWTHandler.timedelta_days.
  repeat split; simplify_map_eq; reflexivity.
Qed.

Lemma access_payload_passes h now t user_id username email (su : bool) role roles :
  t ≤ now + 60 * JWTHandler.access_token_expire_minutes h →
  passes_claim_checks
    (JWTHandler.access_payload h now user_id username email su role roles) t = true.
Proof.
  intros Hexp.
  pose proof (access_payload_lookup h now user_id username email su role roles)
    as (Hsub & _ & _ & _ & _ & _ & _ & Hex & Hiat & Hnbf & Hjti & Haud & Hat).
  cbv zeta in *. unfold passes_claim_checks.
  rewrite Hsub, Hex, Hiat, Hnbf, Hjti, Haud, Hat.
  rewrite (bool_decide_eq_true_2 _ Hexp). reflexivity.
Qed.

Lemma refresh_payload_passes h now t user_id :
  t ≤ now + 86400 * JWTHandler.refresh_token_expire_days h →
  passes_claim_checks (JWTHandler.refresh_payload h now user_id) t = true.
Proof.
  intros Hexp.
  pose proof (refresh_payload_lookup h now user_id)
    as (Hsub & _ & Hex & Hiat & _ & _ & _ & _ & _ & Hnbf & Hjti & Haud & Hat).
  cbv zeta in *. unfold passes_claim_checks.
  rewrite Hsub, Hex, Hiat, Hnbf, Hjti, Haud, Hat.
  rewrite (bool_decide_eq_true_2 _ Hexp). reflexivity.
Qed.

(** Decoding a token the handler issued, before its expiry. *)
Lemma decode_access_token h now t user_id username email (su : bool) role roles :
  jose_round_trip (JWTHandler.secret_key h) (JWTHandler.algorithm h) →
  t ≤ now + 60 * JWTHandler.access_token_expire_minutes h →
  JWTHandler.decode_token h
    (JWTHandler.create_access_token h now user_id username email su role roles) t
  = Ret (Some (JWTHandler.access_payload h now user_id username email su role roles)).
Proof.
  intros Hrt Hexp. apply decode_token_Some. unfold JWTHandler.create_access_token.
  apply Hrt, access_payload_passes, Hexp.
Qed.

Lemma decode_refresh_token h now t user_id :
  jose_round_trip (JWTHandler.secret_key h) (JWTHandler.algorithm h) →
  t ≤ now + 86400 * JWTHandler.refresh_token_expire_days h →
  JWTHandler.decode_token h (JWTHandler.create_refresh_token h now user_id) t
  = Ret (Some (JWTHandler.refresh_payload h now user_id)).
Proof.
  intros Hrt Hexp. apply decode_token_Some. unfold JWTHandler.create_refresh_token.
  apply Hrt, refresh_payload_passes, Hexp.
Qed.

End codec.

(** ** The executable codec meets the round-trip contract *)

Lemma reference_validate_claims_passes (p : Payload) (now : Z) :
  passes_claim_checks p now = true → Reference.validate_claims p now = Ret p.
Proof.
  unfold passes_claim_checks. intros Hp.
  repeat (apply andb_true_iff in Hp as [Hp ?]).
  repeat match goal with H : bool_decide _ = true |- _ => apply bool_decide_eq_true in H end.
  unfold Reference.validate_claims, Reference.time_claim, Reference.string_claim.
  destruct (p !! "exp") as [[| |e| |]|]; try discriminate;
    destruct (p !! "nbf") as [[| |n| |]|]; try discriminate;
    destruct (p !! "iat") as [[| |i| |]|]; try discriminate;
    destruct (p !! "sub") as [[| | | |]|]; try discriminate;
    destruct (p !! "jti") as [[| | | |]|]; try discriminate;
    destruct (p !! "aud"); try discriminate;
    destruct (p !! "at_hash"); try discriminate; simpl;
    repeat match goal with H : bool_decide _ = true |- _ => apply bool_decide_eq_true in H end;
    rewrite ?bool_decide_eq_false_2 by lia; reflexivity.
Qed.

Lemma reference_jose_round_trip (key alg : string) : @jose_round_trip Reference.jose key alg.
Proof.
  intros p now Hp. simpl. unfold Reference.jose_decode, Reference.jose_encode.
  rewrite Reference.string_to_pos_to_string. simpl. rewrite decode_encode. simpl.
  rewrite bool_decide_eq_true_2 by (apply list_elem_of_singleton; reflexivity).
  rewrite bool_decide_eq_true_2 by reflexivity.
  apply reference_validate_claims_passes, Hp.
Qed.

(** A string that is no binary numeral is no token of the executable codec. *)
Lemma reference_jose_garbage (key : string) (algorithms : list string) (now : Z) :
  Reference.jose_decode "invalid.token.here" key algorithms now
  = Raise (JWTError "Not enough segments").
Proof. reflexivity. Qed.

(** ** The authorization gate *)

Section gate.
Context `{Jose}.
Implicit Types (h : JWTHandler.t) (token : string) (now : Z) (p : Payload).

(** C1: the gate looks at the revocation store before the codec.  A token in
    the store is rejected as revoked, whatever the codec would say of it;
    a token not in the store for which [verify_token(token, "access")] gives
    [None] is rejected as invalid or expired; otherwise the gate returns
    the claims [verify_token] decoded, unchanged. *)
Theorem authorization_gate_order (token : string) h (blacklist : TokenBlacklist.t) now :
  (TokenBlacklist.is_blacklisted blacklist token = true →
     dependencies.get_current_user token h blacklist now
     = Raise (HTTPException HTTP_401_UNAUTHORIZED "Token has been revoked"))
  ∧ (TokenBlacklist.is_blacklisted blacklist token = false →
     JWTHandler.verify_token h token "access" now = Ret None →
     dependencies.get_current_user token h blacklist now
     = Raise (HTTPException HTTP_401_UNAUTHORIZED "Invalid or expired token"))
  ∧ (∀ p, TokenBlacklist.is_blacklisted blacklist token = false →
     JWTHandler.verify_token h token "access" now = Ret (Some p) →
     dependencies.get_current_user token h blacklist now = Ret p).
Proof.
  unfold dependencies.get_current_user. split; [|split].
  - intros ->. reflexivity.
  - intros -> ->. reflexivity.
  - intros p -> Hv. rewrite Hv. simpl.
    pose proof (verify_token_truthy _ _ _ _ _ Hv) as Htr. simpl in Htr.
    rewrite Htr. reflexivity.
Qed.

(** C3: with a positive access lifetime, under the round-trip contract of
    the library for the handler's key and algorithm, decoding an access
    token at the time it was issued from a subject id, username, email,
    superuser flag, primary role and non-empty role list gives a payload
    that holds exactly these six values. *)
Theorem access_token_round_trip h now
    (user_id username email : string) (is_superuser : bool)
    (role : string) (roles : list string) :
  jose_round_trip (JWTHandler.secret_key h) (JWTHandler.algorithm h) →
  0 < JWTHandler.access_token_expire_minutes h →
  roles ≠ [] →
  ∃ p, JWTHandler.decode_token h
         (JWTHandler.create_access_token h now user_id username email
            is_superuser role (Some roles)) now = Ret (Some p)
       ∧ p !! "sub" = Some (JStr user_id)
       ∧ p !! "username" = Some (JStr username)
       ∧ p !! "email" = Some (JStr email)
       ∧ p !! "is_superuser" = Some (JBool is_superuser)
       ∧ p !! "role" = Some (JStr role)
       ∧ p !! "roles" = Some (JArr roles).
Proof.
  intros Hrt Hpos Hroles.
  exists (JWTHandler.access_payload h now user_id username email is_superuser role (Some roles)).
  split; [apply decode_access_token; [exact Hrt|lia]|].
  pose proof (access_payload_lookup h now user_id username email is_superuser role (Some roles))
    as (Hsub & Hun & Hem & Hsu & Hrole & Hrs & _).
  cbv zeta in Hsub, Hun, Hem, Hsu, Hrole, Hrs.
  destruct roles as [|r rs]; [contradiction|].
  split; [exact Hsub|]. split; [exact Hun|]. split; [exact Hem|].
  split; [exact Hsu|]. split; [exact Hrole|exact Hrs].
Qed.

(** A call without a role list, or with an empty one, signs the primary
    role as the only role: [roles or [role]]. *)
Lemma access_token_default_roles h now user_id username email (su : bool) role :
  JWTHandler.access_payload h now user_id username email su role (Some []) !! "roles"
    = Some (JArr [role])
  ∧ JWTHandler.access_payload h now user_id username email su role None !! "roles"
    = Some (JArr [role]).
Proof.
  split.
  - apply (access_payload_lookup h now user_id username email su role (Some [])).
  - apply (access_payload_lookup h now user_id username email su role None).
Qed.

End gate.

(** C4: the RRHH gate lets a claims payload through if and only if its
    primary-role field is the string "RRHH"; every other payload is
    rejected with 403, also one whose role list contains "RRHH" while its
    primary role is another value. *)
Theorem rrhh_gate_primary_role_only (current_user : Payload) :
  (dependencies.get_current_rrhh_user current_user = Ret current_user
   ↔ current_user !! "role" = Some (JStr "RRHH"))
  ∧ (is_Ret (dependencies.get_current_rrhh_user current_user) = true
     ↔ current_user !! "role" = Some (JStr "RRHH"))
  ∧ (current_user !! "role" ≠ Some (JStr "RRHH") →
     dependencies.get_current_rrhh_user current_user
     = Raise (HTTPException HTTP_403_FORBIDDEN
                "Only users with RRHH role can perform this action"))
  ∧ (∀ (primary : string) (codes : list string),
       "RRHH" ∈ codes → primary ≠ "RRHH" →
       current_user !! "roles" = Some (JArr codes) →
       current_user !! "role" = Some (JStr primary) →
       dependencies.get_current_rrhh_user current_user
       = Raise (HTTPException HTTP_403_FORBIDDEN
                  "Only users with RRHH role can perform this action")).
Proof.
  unfold dependencies.get_current_rrhh_user.
  destruct (decide (current_user !! "role" = Some (JStr "RRHH"))) as [Hrole|Hrole].
  - rewrite bool_decide_eq_false_2 by (intros Hne; exact (Hne Hrole)).
    repeat split; try (intros; assumption); try reflexivity.
    + intros Hne. contradiction.
    + intros primary codes _ Hp _ Hr. rewrite Hr in Hrole. inversion Hrole. contradiction.
  - rewrite (bool_decide_eq_true_2 _ Hrole).
    repeat split; try discriminate; try (intros; contradiction); intros; reflexivity.
Qed.

(** ** The gate and the codec on concrete requests *)

(** The handler of the default settings, and tokens of the executable codec
    issued at second 1000 to the user with id [5]. *)
Definition demo_handler : JWTHandler.t := dependencies.get_jwt_handler Settings.defaults.

Definition demo_user_id : string := Reference.pos_to_string 5.

Definition demo_access_token : string :=
  @JWTHandler.create_access_token Reference.jose demo_handler 1000
    demo_user_id "jdoe" "jdoe@clinic.org" false "MEDICO" (Some ["MEDICO"]).

Definition demo_refresh_token : string :=
  @JWTHandler.create_refresh_token Reference.jose demo_handler 1000 demo_user_id.

Lemma fresh_store_holds_nothing (now : Z) (token : string) :
  TokenBlacklist.is_blacklisted (TokenBlacklist.init now) token = false.
Proof. apply bool_decide_eq_false, not_elem_of_empty. Qed.

Lemma demo_access_token_decodes :
  @JWTHandler.decode_token Reference.jose demo_handler demo_access_token 1000
  = Ret (Some (JWTHandler.access_payload demo_handler 1000
                 demo_user_id "jdoe" "jdoe@clinic.org" false "MEDICO" (Some ["MEDICO"]))).
Proof.
  apply (@decode_access_token Reference.jose).
  - apply reference_jose_round_trip.
  - vm_compute. discriminate.
Qed.

Lemma demo_refresh_token_decodes :
  @JWTHandler.decode_token Reference.jose demo_handler demo_refresh_token 1000
  = Ret (Some (JWTHandler.refresh_payload demo_handler 1000 demo_user_id)).
Proof.
  apply (@decode_refresh_token Reference.jose).
  - apply reference_jose_round_trip.
  - vm_compute. discriminate.
Qed.

Lemma demo_access_token_verifies :
  @JWTHandler.verify_token Reference.jose demo_handler demo_access_token "access" 1000
  = Ret (Some (JWTHandler.access_payload demo_handler 1000
                 demo_user_id "jdoe" "jdoe@clinic.org" false "MEDICO" (Some ["MEDICO"]))).
Proof.
  apply (@verify_token_Some Reference.jose). split.
  - apply demo_access_token_decodes.
  - reflexivity.
Qed.

(** C1 on three requests: a revoked string that is not even a token, the
    same string when the store is empty, and a valid access token. *)
Lemma authorization_gate_order_witness :
  @dependencies.get_current_user Reference.jose "invalid.token.here" demo_handler
    (TokenBlacklist.add_token (TokenBlacklist.init 0) "invalid.token.here" 0) 1000
  = Raise (HTTPException HTTP_401_UNAUTHORIZED "Token has been revoked")
  ∧ @dependencies.get_current_user Reference.jose "invalid.token.here" demo_handler
      (TokenBlacklist.init 0) 1000
    = Raise (HTTPException HTTP_401_UNAUTHORIZED "Invalid or expired token")
  ∧ @dependencies.get_current_user Reference.jose demo_access_token demo_handler
      (TokenBlacklist.init 0) 1000
    = Ret (JWTHandler.access_payload demo_handler 1000
             demo_user_id "jdoe" "jdoe@clinic.org" false "MEDICO" (Some ["MEDICO"])).
Proof.
  split; [|split].
  - apply (@authorization_gate_order Reference.jose). vm_compute. reflexivity.
  - apply (@authorization_gate_order Reference.jose).
    + apply fresh_store_holds_nothing.
    + reflexivity.
  - apply (@authorization_gate_order Reference.jose).
    + apply fresh_store_holds_nothing.
    + apply demo_access_token_verifies.
Defined.

(** A token signed with the service's key and algorithm whose [exp] is
    [null]. *)
Definition null_exp_claims : Payload :=
  <["sub" := JStr demo_user_id]> (<["type" := JStr "access"]> (<["exp" := JNull]> ∅)).

Definition null_exp_token : string :=
  Reference.jose_encode null_exp_claims
    (JWTHandler.secret_key demo_handler) (JWTHandler.algorithm demo_handler).

(** C2 fails on the code: [decode_token] catches [JWTError] only.  On the
    signed token whose [exp] is [null] the library's [int(None)] is a
    [TypeError], no [JWTError], and [decode_token], [verify_token] and the
    gate built on them raise it where [None], [None] and a 401 were due;
    a string the library rejects with a [JWTError] does give [None]. *)
Theorem decode_token_raises_on_null_exp :
  let type_error :=
    Exception "int() argument must be a string, a bytes-like object or a real number, not 'NoneType'" in
  isinstance_JWTError type_error = false
  ∧ @jwt_decode Reference.jose null_exp_token (JWTHandler.secret_key demo_handler)
      [JWTHandler.algorithm demo_handler] 1000 = Raise type_error
  ∧ @JWTHandler.decode_token Reference.jose demo_handler null_exp_token 1000
    = Raise type_error
  ∧ @JWTHandler.verify_token Reference.jose demo_handler null_exp_token "access" 1000
    = Raise type_error
  ∧ @dependencies.get_current_user Reference.jose null_exp_token demo_handler
      (TokenBlacklist.init 0) 1000 = Raise type_error
  ∧ @JWTHandler.decode_token Reference.jose demo_handler "invalid.token.here" 1000
    = Ret None.
Proof. repeat split; vm_compute; reflexivity. Qed.

(** C3 on the demo user's access token. *)
Lemma access_token_round_trip_witness :
  ∃ p, @JWTHandler.decode_token Reference.jose demo_handler demo_access_token 1000
       = Ret (Some p)
       ∧ p !! "sub" = Some (JStr demo_user_id)
       ∧ p !! "username" = Some (JStr "jdoe")
       ∧ p !! "email" = Some (JStr "jdoe@clinic.org")
       ∧ p !! "is_superuser" = Some (JBool false)
       ∧ p !! "role" = Some (JStr "MEDICO")
       ∧ p !! "roles" = Some (JArr ["MEDICO"]).
Proof.
  apply (@access_token_round_trip Reference.jose demo_handler 1000).
  - apply reference_jose_round_trip.
  - reflexivity.
  - discriminate.
Defined.

(** Claims of a user whose second role is RRHH, and of an RRHH user. *)
Definition secondary_rrhh_claims : Payload :=
  let codes := ["MEDICO"; "RRHH"] in
  <["role" := JStr "MEDICO"]> (<["roles" := JArr codes]> ∅).

Definition primary_rrhh_claims : Payload :=
  let codes := ["RRHH"] in
  <["role" := JStr "RRHH"]> (<["roles" := JArr codes]> ∅).

(** C4 on a user whose second role is RRHH, and on an RRHH user. *)
Lemma rrhh_gate_primary_role_only_witness :
  dependencies.get_current_rrhh_user secondary_rrhh_claims
  = Raise (HTTPException HTTP_403_FORBIDDEN
             "Only users with RRHH role can perform this action")
  ∧ dependencies.get_current_rrhh_user primary_rrhh_claims = Ret primary_rrhh_claims.
Proof.
  split.
  - apply (rrhh_gate_primary_role_only secondary_rrhh_claims)
      with (primary := "MEDICO") (codes := ["MEDICO"; "RRHH"]).
    + apply elem_of_cons. right. apply elem_of_cons. left. reflexivity.
    + discriminate.
    + reflexivity.
    + reflexivity.
  - apply (rrhh_gate_primary_role_only primary_rrhh_claims). reflexivity.
Defined.

(** ** Login *)

Section login.
Context `{Jose} `{PasswordContext} `{Pydantic} `{Repositories}.
Implicit Types (h : JWTHandler.t) (request : LoginRequest.t) (now : Z) (d : DB) (u : User.t).

(** The user an identifier designates: the one with that email when there
    is one, else the one with that username. *)
Definition located (identifier : string) d u : Prop :=
  get_by_email identifier d = Ret (Some u)
  ∨ (get_by_email identifier d = Ret None ∧ get_by_username identifier d = Ret (Some u)).

Ltac run_login :=
  unfold LoginUserUseCase.execute, mbind, StateRes_bind, reading, raise, pure_call,
    mret, StateRes_ret.

Lemma login_not_found h request now d :
  get_by_email (LoginRequest.identifier request) d = Ret None →
  get_by_username (LoginRequest.identifier request) d = Ret None →
  LoginUserUseCase.execute h request now d = (Raise (ValueError "Invalid credentials"), d).
Proof. intros He Hu. run_login. rewrite He, Hu. reflexivity. Qed.

(** After the lookups, [execute] goes on with the located user. *)
Lemma login_located h request now d u :
  located (LoginRequest.identifier request) d u →
  LoginUserUseCase.execute h request now d =
    if negb (User.is_active u) then (Raise (ValueError "Account is inactive"), d)
    else match pwd_verify (LoginRequest.password request) (User.hashed_password u) with
         | Raise e => (Raise e, d)
         | Ret false => (Raise (ValueError "Invalid credentials"), d)
         | Ret true =>
             LoginUserUseCase.execute h request now d
         end.
Proof.
  intros [He|[He Hu]]; run_login; rewrite He; [|rewrite Hu];
    destruct (User.is_active u); simpl; try reflexivity;
    destruct (pwd_verify _ _) as [[|]|e]; reflexivity.
Qed.

Lemma login_success_inv h request now d (r : TokenResponse.t) (d' : DB) :
  LoginUserUseCase.execute h request now d = (Ret r, d') →
  ∃ u, located (LoginRequest.identifier request) d u
       ∧ User.is_active u = true
       ∧ pwd_verify (LoginRequest.password request) (User.hashed_password u) = Ret true.
Proof.
  run_login. unfold located.
  destruct (get_by_email _ d) as [[u|]|e] eqn:He; [| |discriminate].
  - destruct (User.is_active u) eqn:Hact; simpl; [|discriminate].
    destruct (pwd_verify _ _) as [[|]|e] eqn:Hpw; simpl; try discriminate.
    intros _. exists u. auto.
  - destruct (get_by_username _ d) as [[u|]|e] eqn:Hu; [| discriminate | discriminate].
    destruct (User.is_active u) eqn:Hact; simpl; [|discriminate].
    destruct (pwd_verify _ _) as [[|]|e] eqn:Hpw; simpl; try discriminate.
    intros _. exists u. auto.
Qed.

(** C5: a login attempt looks the identifier up as an email first and as a
    username second.  When neither finds a user it fails with "Invalid
    credentials"; when the located user is inactive it fails with "Account
    is inactive", whatever the password; when the user is active and the
    password does not verify it fails with "Invalid credentials", the very
    error of the first case.  Each failure leaves the database as it was,
    and a run that returns a token response has located an active user
    whose password verified. *)
Theorem login_failure_paths h request now d :
  let identifier := LoginRequest.identifier request in
  let password := LoginRequest.password request in
  (get_by_email identifier d = Ret None → get_by_username identifier d = Ret None →
     LoginUserUseCase.execute h request now d
     = (Raise (ValueError "Invalid credentials"), d))
  ∧ (∀ u, located identifier d u → User.is_active u = false →
     LoginUserUseCase.execute h request now d
     = (Raise (ValueError "Account is inactive"), d))
  ∧ (∀ u, located identifier d u → User.is_active u = true →
     pwd_verify password (User.hashed_password u) = Ret false →
     LoginUserUseCase.execute h request now d
     = (Raise (ValueError "Invalid credentials"), d))
  ∧ (∀ r d', LoginUserUseCase.execute h request now d = (Ret r, d') →
     ∃ u, located identifier d u ∧ User.is_active u = true
          ∧ pwd_verify password (User.hashed_password u) = Ret true).
Proof.
  intros identifier password. split; [apply login_not_found|].
  split.
  { intros u Hloc Hact. rewrite (login_located _ _ _ _ _ Hloc), Hact. reflexivity. }
  split.
  { intros u Hloc Hact Hpw.
    rewrite (login_located _ _ _ _ _ Hloc), Hact. fold password. rewrite Hpw. reflexivity. }
  apply login_success_inv.
Qed.

(** At the route, the two "Invalid credentials" failures and the inactive
    account all become a 401 whose detail is the message of the error. *)
Lemma login_route_unauthorized h request now d (msg : string) :
  LoginUserUseCase.execute h request now d = (Raise (ValueError msg), d) →
  routes.login request h now d = (Raise (HTTPException HTTP_401_UNAUTHORIZED msg), d).
Proof.
  intros Hex. unfold routes.login, try_except. rewrite Hex. reflexivity.
Qed.

End login.

(** ** Login on a concrete database *)

Definition demo_user (id : positive) (username email hashed_password : string)
    (is_active is_superuser : bool) : @User.t Reference.uuidlib :=
  @User.Build_t Reference.uuidlib
    id "1234567890" "John Doe" email "3001234567" 0 "Calle 123" username
    hashed_password [] is_active is_superuser 0 0 None.

Definition demo_role (id : positive) (code : string) (is_active : bool)
    : @Role.t Reference.uuidlib :=
  @Role.Build_t Reference.uuidlib id code code None is_active 0 0.

Definition jdoe : @User.t Reference.uuidlib :=
  demo_user 5 "jdoe" "jdoe@clinic.org" "hashed:Correct1!" true false.

Definition gone : @User.t Reference.uuidlib :=
  demo_user 6 "gone" "gone@clinic.org" "hashed:Correct1!" false false.

Definition demo_db : Reference.Database :=
  {| Reference.users := [jdoe; gone];
     Reference.assigned := [(5%positive, [demo_role 9 "MEDICO" true])] |}.

Definition login_request (identifier password : string) : LoginRequest.t :=
  {| LoginRequest.identifier := identifier; LoginRequest.password := password |}.

(** C5 on four attempts: an unknown identifier, an inactive account with
    the right password, a known username with a wrong password, and a known
    email with a wrong password. *)
Lemma login_failure_paths_witness :
  @LoginUserUseCase.execute Reference.jose Reference.passlib Reference.pydantic Reference.uuidlib
     Reference.repositories demo_handler (login_request "nobody" "Correct1!") 1000 demo_db
  = (Raise (ValueError "Invalid credentials"), demo_db)
  ∧ @LoginUserUseCase.execute Reference.jose Reference.passlib Reference.pydantic Reference.uuidlib
      Reference.repositories demo_handler (login_request "gone" "Correct1!") 1000 demo_db
    = (Raise (ValueError "Account is inactive"), demo_db)
  ∧ @LoginUserUseCase.execute Reference.jose Reference.passlib Reference.pydantic Reference.uuidlib
      Reference.repositories demo_handler (login_request "jdoe" "Wrong1!") 1000 demo_db
    = (Raise (ValueError "Invalid credentials"), demo_db)
  ∧ @LoginUserUseCase.execute Reference.jose Reference.passlib Reference.pydantic Reference.uuidlib
      Reference.repositories demo_handler (login_request "jdoe@clinic.org" "Wrong1!")
      1000 demo_db
    = (Raise (ValueError "Invalid credentials"), demo_db).
Proof.
  split; [|split; [|split]].
  - apply (@login_failure_paths Reference.jose Reference.passlib Reference.pydantic Reference.uuidlib
             Reference.repositories); reflexivity.
  - apply (@login_failure_paths Reference.jose Reference.passlib Reference.pydantic Reference.uuidlib
             Reference.repositories demo_handler (login_request "gone" "Correct1!")
             1000 demo_db) with (u := gone).
    + right. split; reflexivity.
    + reflexivity.
  - apply (@login_failure_paths Reference.jose Reference.passlib Reference.pydantic Reference.uuidlib
             Reference.repositories demo_handler (login_request "jdoe" "Wrong1!")
             1000 demo_db) with (u := jdoe).
    + right. split; reflexivity.
    + reflexivity.
    + reflexivity.
  - apply (@login_failure_paths Reference.jose Reference.passlib Reference.pydantic Reference.uuidlib
             Reference.repositories demo_handler (login_request "jdoe@clinic.org" "Wrong1!")
             1000 demo_db) with (u := jdoe).
    + left. reflexivity.
    + reflexivity.
    + reflexivity.
Defined.

(** ** Refresh and the revocation store *)

Section refresh.
Context `{Jose} `{PasswordContext} `{Pydantic} `{Repositories}.
Implicit Types (settings : Settings.t) (now : Z) (w : app.World).

Lemma world_eta w w' :
  app.db w' = app.db w →
  w' = app.with_blacklist w (app._token_blacklist_instance w').
Proof. destruct w, w'. simpl. intros ->. reflexivity. Qed.

(** An endpoint that only depends on the repositories gives the same result
    and the same database in every state of the blacklist, and leaves the
    blacklist as it found it. *)
Lemma on_db_blacklist {A} (m : StateRes DB A) w (b : option TokenBlacklist.t) :
  app.on_db m (app.with_blacklist w b)
  = ((app.on_db m w).1, app.with_blacklist (app.on_db m w).2 b).
Proof. unfold app.on_db. simpl. destruct (m (app.db w)) as [r d]. reflexivity. Qed.

Lemma on_db_keeps_blacklist {A} (m : StateRes DB A) w :
  app._token_blacklist_instance (app.on_db m w).2 = app._token_blacklist_instance w.
Proof. unfold app.on_db. destruct (m (app.db w)) as [r d]. reflexivity. Qed.

Lemma get_blacklist_db now w :
  app.db (app.get_blacklist now w).2 = app.db w.
Proof.
  unfold app.get_blacklist, TokenBlacklist.get_token_blacklist.
  destruct (app._token_blacklist_instance w); reflexivity.
Qed.

(** Logout never writes to the database. *)
Lemma logout_keeps_db settings (credentials : string) now w :
  app.db (app.post_auth_logout settings credentials now w).2 = app.db w.
Proof.
  unfold app.post_auth_logout, app.current_user, mbind, StateRes_bind, pure_call.
  pose proof (get_blacklist_db now w) as Hdb.
  destruct (app.get_blacklist now w) as [[b|e] w1] eqn:Hg1; simpl in Hdb; [|exact Hdb].
  destruct (dependencies.get_current_user _ _ _ _) as [user|e]; [|exact Hdb].
  pose proof (get_blacklist_db now w1) as Hdb2.
  destruct (app.get_blacklist now w1) as [[b2|e2] w2] eqn:Hg2; simpl in Hdb2;
    [|simpl; congruence].
  unfold app.on_blacklist.
  destruct (routes.logout credentials user now b2) as [r b3]. simpl. congruence.
Qed.

(** C9: the refresh endpoint never consults the revocation store.  For every
    refresh request and every state of the service, replacing the store by
    any other one (also one that holds this very token) changes neither the
    response nor the database the endpoint leaves, and the endpoint leaves
    the store untouched; in particular the response to a refresh request
    after any logout is the response it would have got without the logout. *)
Theorem refresh_ignores_revocation_store settings (request : string) now w :
  (∀ b : option TokenBlacklist.t,
     (app.post_auth_refresh settings request now (app.with_blacklist w b)).1
     = (app.post_auth_refresh settings request now w).1
     ∧ app.db (app.post_auth_refresh settings request now (app.with_blacklist w b)).2
       = app.db (app.post_auth_refresh settings request now w).2)
  ∧ app._token_blacklist_instance (app.post_auth_refresh settings request now w).2
    = app._token_blacklist_instance w
  ∧ (∀ (credentials : string) (logout_time : Z),
       (app.post_auth_refresh settings request now
          (app.post_auth_logout settings credentials logout_time w).2).1
       = (app.post_auth_refresh settings request now w).1).
Proof.
  unfold app.post_auth_refresh.
  split; [|split].
  - intros b. rewrite on_db_blacklist. split; reflexivity.
  - apply on_db_keeps_blacklist.
  - intros credentials logout_time.
    rewrite (world_eta w _ (logout_keeps_db settings credentials logout_time w)).
    rewrite on_db_blacklist. reflexivity.
Qed.

End refresh.

(** ** Token validation *)

Section validate.
Context `{Jose} `{UuidLib} `{Pydantic}.
Implicit Types (h : JWTHandler.t) (token : string) (now : Z) (p : Payload).

(** The optional fields of a payload have the types the codec writes:
    [username] and [email] are strings, [is_superuser] is a boolean. *)
Definition well_typed_optional_fields p : Prop :=
  (p !! "username" = None ∨ ∃ s, p !! "username" = Some (JStr s))
  ∧ (p !! "email" = None ∨ ∃ s, p !! "email" = Some (JStr s))
  ∧ (p !! "is_superuser" = None ∨ ∃ b, p !! "is_superuser" = Some (JBool b)).

(** The sentence of the design under test: a decodable payload is reported
    invalid only when its [sub] is missing or empty. *)
Definition invalid_only_without_subject : Prop :=
  ∀ h token now p (r : TokenValidationResponse.t),
    JWTHandler.decode_token h token now = Ret (Some p) →
    ValidateTokenUseCase.execute h token now = Ret r →
    TokenValidationResponse.valid r = false →
    p !! "sub" = None ∨ p !! "sub" = Some (JStr EmptyString).

Lemma truthy_sub_string p :
  truthy (p !! "sub") = true → (∃ e, ValidateTokenUseCase.UUID_of (p !! "sub") = Raise e)
  ∨ ∃ s, p !! "sub" = Some (JStr s) ∧ s ≠ EmptyString.
Proof.
  destruct (p !! "sub") as [[|b|n|s|l]|]; simpl; intros Htr; try discriminate;
    try (left; eexists; reflexivity).
  right. exists s. split; [reflexivity|].
  apply negb_true_iff, bool_decide_eq_false in Htr. exact Htr.
Qed.

(** The [try] block once the token has decoded. *)
Lemma execute_try_decoded h token now p :
  JWTHandler.decode_token h token now = Ret (Some p) →
  ValidateTokenUseCase.execute_try h token now =
    if bool_decide (p = ∅) then
      Ret (TokenValidationResponse.invalid "Invalid or expired token")
    else if negb (truthy (p !! "sub")) then
      Ret (TokenValidationResponse.invalid "Invalid token payload")
    else
      uid ← ValidateTokenUseCase.UUID_of (p !! "sub");
      username ← validate_optional_str (p !! "username");
      email ← validate_optional_str (p !! "email");
      is_superuser ← validate_bool (default (JBool false) (p !! "is_superuser"));
      Ret {| TokenValidationResponse.valid := true;
             TokenValidationResponse.user_id := Some uid;
             TokenValidationResponse.username := username;
             TokenValidationResponse.email := email;
             TokenValidationResponse.is_superuser := is_superuser;
             TokenValidationResponse.message := Some "Token is valid" |}.
Proof.
  intros Hdec. unfold ValidateTokenUseCase.execute_try. rewrite Hdec. simpl.
  destruct (bool_decide (p = ∅)); reflexivity.
Qed.

Lemma execute_never_raises h token now :
  ∃ r, ValidateTokenUseCase.execute h token now = Ret r.
Proof.
  unfold ValidateTokenUseCase.execute.
  destruct (ValidateTokenUseCase.execute_try h token now); eauto.
Qed.

Lemma validate_str_field (v : option JValue) :
  (v = None ∨ ∃ s, v = Some (JStr s)) → ∃ o, validate_optional_str v = Ret o.
Proof.
  intros [->|[s ->]].
  - rewrite validate_optional_str_None. eauto.
  - rewrite validate_optional_str_JStr. eauto.
Qed.

Lemma validate_bool_field (v : option JValue) :
  (v = None ∨ ∃ b, v = Some (JBool b)) →
  ∃ b, validate_bool (default (JBool false) v) = Ret b.
Proof. intros [->|[b ->]]; simpl; rewrite validate_bool_JBool; eauto. Qed.

(** A payload whose [sub] is a non-empty UUID string and whose optional
    fields are well typed is reported valid. *)
Lemma execute_valid h token now p (s : string) (u : uuid) :
  JWTHandler.decode_token h token now = Ret (Some p) →
  p !! "sub" = Some (JStr s) → s ≠ EmptyString → UUID s = Ret u →
  well_typed_optional_fields p →
  ∃ r, ValidateTokenUseCase.execute h token now = Ret r
       ∧ TokenValidationResponse.valid r = true
       ∧ TokenValidationResponse.user_id r = Some u.
Proof.
  intros Hdec Hsub Hs Hu (Hun & Hem & Hsu).
  unfold ValidateTokenUseCase.execute. rewrite (execute_try_decoded _ _ _ _ Hdec).
  rewrite bool_decide_eq_false_2
    by (intros ->; rewrite lookup_empty in Hsub; discriminate).
  rewrite Hsub. simpl. rewrite (bool_decide_eq_false_2 _ Hs). simpl. rewrite Hu. simpl.
  destruct (validate_str_field _ Hun) as [o1 ->].
  destruct (validate_str_field _ Hem) as [o2 ->].
  destruct (validate_bool_field _ Hsu) as [b ->]. simpl.
  eexists. split; [reflexivity|]. split; reflexivity.
Qed.

(** C10, as the code has it: validation does not look at the token kind.
    Whatever its kind, a decodable token whose [sub] is a non-empty string
    that parses as a UUID and which carries no username, email or superuser
    flag (the shape of a refresh token) is reported valid, with username
    and email absent and the superuser flag false.  The use case never
    raises.  A decodable payload with well-typed optional fields is
    reported invalid exactly when its [sub] is missing or falsy (empty), or
    is not a string that [UUID] parses. *)
Theorem validate_ignores_token_kind h token now p :
  JWTHandler.decode_token h token now = Ret (Some p) →
  (∀ (s : string) (u : uuid),
     p !! "sub" = Some (JStr s) → s ≠ EmptyString → UUID s = Ret u →
     p !! "username" = None → p !! "email" = None → p !! "is_superuser" = None →
     ValidateTokenUseCase.execute h token now
     = Ret {| TokenValidationResponse.valid := true;
              TokenValidationResponse.user_id := Some u;
              TokenValidationResponse.username := None;
              TokenValidationResponse.email := None;
              TokenValidationResponse.is_superuser := false;
              TokenValidationResponse.message := Some "Token is valid" |})
  ∧ (∃ r, ValidateTokenUseCase.execute h token now = Ret r)
  ∧ (well_typed_optional_fields p →
     ∀ r, ValidateTokenUseCase.execute h token now = Ret r →
          (TokenValidationResponse.valid r = false
           ↔ truthy (p !! "sub") = false
             ∨ ∃ e, ValidateTokenUseCase.UUID_of (p !! "sub") = Raise e)).
Proof.
  intros Hdec. split; [|split].
  - intros s u Hsub Hs Hu Hun Hem Hsu.
    unfold ValidateTokenUseCase.execute. rewrite (execute_try_decoded _ _ _ _ Hdec).
    rewrite bool_decide_eq_false_2
      by (intros ->; rewrite lookup_empty in Hsub; discriminate).
    rewrite Hsub, Hun, Hem, Hsu. simpl. rewrite (bool_decide_eq_false_2 _ Hs). simpl.
    rewrite Hu. simpl. rewrite validate_optional_str_None. simpl.
    rewrite validate_bool_JBool. reflexivity.
  - apply execute_never_raises.
  - intros Hwt r Hr. split.
    + intros Hinvalid.
      destruct (truthy (p !! "sub")) eqn:Htr; [|left; reflexivity].
      right. destruct (truthy_sub_string _ Htr) as [Hraise|(s & Hsub & Hs)];
        [exact Hraise|].
      destruct (UUID s) as [u|e] eqn:Hu.
      * destruct (execute_valid _ _ _ _ _ _ Hdec Hsub Hs Hu Hwt) as (r' & Hr' & Hv & _).
        rewrite Hr in Hr'. inversion Hr'; subst. rewrite Hv in Hinvalid. discriminate.
      * exists e. rewrite Hsub. exact Hu.
    + unfold ValidateTokenUseCase.execute in Hr.
      rewrite (execute_try_decoded _ _ _ _ Hdec) in Hr.
      intros [Hfalsy|[e He]].
      * rewrite Hfalsy in Hr. simpl in Hr.
        destruct (bool_decide (p = ∅)); inversion Hr; reflexivity.
      * rewrite He in Hr. simpl in Hr.
        destruct (bool_decide (p = ∅)); [inversion Hr; reflexivity|].
        destruct (negb (truthy (p !! "sub"))); inversion Hr; reflexivity.
Qed.

(** A refresh token the handler issued for a user id is reported valid
    until it expires. *)
Lemma validate_accepts_refresh_token h now t (u : uuid) :
  jose_round_trip (JWTHandler.secret_key h) (JWTHandler.algorithm h) →
  t ≤ now + 86400 * JWTHandler.refresh_token_expire_days h →
  ValidateTokenUseCase.execute h (JWTHandler.create_refresh_token h now (uuid_str u)) t
  = Ret {| TokenValidationResponse.valid := true;
           TokenValidationResponse.user_id := Some u;
           TokenValidationResponse.username := None;
           TokenValidationResponse.email := None;
           TokenValidationResponse.is_superuser := false;
           TokenValidationResponse.message := Some "Token is valid" |}.
Proof.
  intros Hrt Hexp.
  pose proof (decode_refresh_token h now t (uuid_str u) Hrt Hexp) as Hdec.
  pose proof (refresh_payload_lookup h now (uuid_str u))
    as (Hsub & _ & _ & _ & Hun & Hem & Hsu & _).
  cbv zeta in Hsub, Hun, Hem, Hsu.
  unfold ValidateTokenUseCase.execute. rewrite (execute_try_decoded _ _ _ _ Hdec).
  rewrite bool_decide_eq_false_2
    by (intros Hempty; rewrite Hempty, lookup_empty in Hsub; discriminate).
  rewrite Hsub, Hun, Hem, Hsu. simpl.
  rewrite (bool_decide_eq_false_2 _ (uuid_str_nonempty u)). simpl.
  rewrite UUID_uuid_str. simpl. rewrite validate_optional_str_None. simpl.
  rewrite validate_bool_JBool. reflexivity.
Qed.

End validate.

(** ** Validation on concrete tokens *)

(** A refresh token signed with the service's key whose subject is a
    username, not a UUID. *)
Definition username_subject_token : string :=
  @JWTHandler.create_refresh_token Reference.jose demo_handler 1000 "jdoe".

Lemma username_subject_token_decodes :
  @JWTHandler.decode_token Reference.jose demo_handler username_subject_token 1000
  = Ret (Some (JWTHandler.refresh_payload demo_handler 1000 "jdoe")).
Proof.
  apply (@decode_refresh_token Reference.jose).
  - apply reference_jose_round_trip.
  - vm_compute. discriminate.
Qed.

Lemma username_subject_token_invalid :
  @ValidateTokenUseCase.execute Reference.jose Reference.uuidlib Reference.pydantic
    demo_handler username_subject_token 1000
  = Ret (@TokenValidationResponse.invalid Reference.uuidlib
           "Token validation failed: badly formed hexadecimal UUID string").
Proof.
  unfold ValidateTokenUseCase.execute.
  rewrite (@execute_try_decoded Reference.jose Reference.uuidlib Reference.pydantic
             _ _ _ _ username_subject_token_decodes).
  vm_compute. reflexivity.
Qed.

(** C10 as the design states it fails: this token decodes, its [sub] is the
    non-empty string "jdoe", and validation reports it invalid. *)
Lemma validate_rejects_non_uuid_subject :
  @JWTHandler.decode_token Reference.jose demo_handler username_subject_token 1000
  = Ret (Some (JWTHandler.refresh_payload demo_handler 1000 "jdoe"))
  ∧ JWTHandler.refresh_payload demo_handler 1000 "jdoe" !! "sub" = Some (JStr "jdoe")
  ∧ @ValidateTokenUseCase.execute Reference.jose Reference.uuidlib Reference.pydantic
      demo_handler username_subject_token 1000
    = Ret (@TokenValidationResponse.invalid Reference.uuidlib
             "Token validation failed: badly formed hexadecimal UUID string")
  ∧ ¬ @invalid_only_without_subject Reference.jose Reference.uuidlib Reference.pydantic.
Proof.
  split; [exact username_subject_token_decodes|].
  split; [reflexivity|].
  split; [exact username_subject_token_invalid|].
  intros Hclaim.
  destruct (Hclaim _ _ _ _ _ username_subject_token_decodes
              username_subject_token_invalid eq_refl) as [Hsub|Hsub];
    vm_compute in Hsub; discriminate.
Qed.

(** C10 on the demo user's refresh token: a token of kind "refresh" is
    reported valid. *)
Lemma validate_ignores_token_kind_witness :
  JWTHandler.refresh_payload demo_handler 1000 demo_user_id !! "type" = Some (JStr "refresh")
  ∧ @ValidateTokenUseCase.execute Reference.jose Reference.uuidlib Reference.pydantic
      demo_handler demo_refresh_token 1000
    = Ret (@TokenValidationResponse.Build_t Reference.uuidlib
             true (Some 5%positive) None None false (Some "Token is valid")).
Proof.
  split; [reflexivity|].
  apply (@validate_ignores_token_kind Reference.jose Reference.uuidlib Reference.pydantic
           demo_handler demo_refresh_token 1000
           (JWTHandler.refresh_payload demo_handler 1000 demo_user_id)
           demo_refresh_token_decodes) with (s := demo_user_id);
    first [reflexivity | discriminate].
Defined.

(** ** A session: login token, logout, refresh *)

(** The service with the demo database and no blacklist created yet. *)
Definition demo_world : @app.World Reference.uuidlib Reference.repositories :=
  @app.Build_World Reference.uuidlib Reference.repositories demo_db None.

(** The service after the demo user logged out at second 1000. *)
Definition logged_out_world : @app.World Reference.uuidlib Reference.repositories :=
  (@app.post_auth_logout Reference.jose Reference.uuidlib Reference.repositories
     Settings.defaults demo_access_token 1000 demo_world).2.

(** C9 on a session: the logout succeeds and the gate then rejects the
    access token as revoked, yet the refresh token of the same session is
    accepted after the logout, and answered as it was before. *)
Lemma refresh_ignores_revocation_store_witness :
  is_Ret (@app.post_auth_logout Reference.jose Reference.uuidlib Reference.repositories
            Settings.defaults demo_access_token 1000 demo_world).1 = true
  ∧ (@app.current_user Reference.jose Reference.uuidlib Reference.repositories
       Settings.defaults demo_access_token 1001 logged_out_world).1
    = Raise (HTTPException HTTP_401_UNAUTHORIZED "Token has been revoked")
  ∧ is_Ret (@app.post_auth_refresh Reference.jose Reference.pydantic Reference.uuidlib Reference.repositories
              Settings.defaults demo_refresh_token 1001 logged_out_world).1 = true
  ∧ (@app.post_auth_refresh Reference.jose Reference.pydantic Reference.uuidlib Reference.repositories
       Settings.defaults demo_refresh_token 1001 logged_out_world).1
    = (@app.post_auth_refresh Reference.jose Reference.pydantic Reference.uuidlib Reference.repositories
         Settings.defaults demo_refresh_token 1001 demo_world).1.
Proof.
  split; [vm_compute; reflexivity|].
  split; [vm_compute; reflexivity|].
  split; [vm_compute; reflexivity|].
  apply (@refresh_ignores_revocation_store Reference.jose Reference.pydantic Reference.uuidlib
           Reference.repositories).
Defined.

(** ** The worked examples of the design, run *)

(** An ordinary user with the single active role MEDICO. *)
Example resolve_medico :
  (LoginUserUseCase.primary_role false [demo_role 9 "MEDICO" true],
   LoginUserUseCase.role_codes false [demo_role 9 "MEDICO" true])
  = ("MEDICO", ["MEDICO"]).
Proof. reflexivity. Qed.

(** The first active role in the order supplied is the primary one; an
    inactive role before it is skipped. *)
Example resolve_skips_inactive :
  (LoginUserUseCase.primary_role false
     [demo_role 7 "ADMIN" false; demo_role 8 "ENFERMERA" true; demo_role 9 "MEDICO" true],
   LoginUserUseCase.role_codes false
     [demo_role 7 "ADMIN" false; demo_role 8 "ENFERMERA" true; demo_role 9 "MEDICO" true])
  = ("ENFERMERA", ["ENFERMERA"; "MEDICO"]).
Proof. reflexivity. Qed.

(** A superuser who also holds MEDICO: RRHH is appended to the codes. *)
Example resolve_superuser_with_role :
  (LoginUserUseCase.primary_role true [demo_role 9 "MEDICO" true],
   LoginUserUseCase.role_codes true [demo_role 9 "MEDICO" true])
  = ("RRHH", ["MEDICO"; "RRHH"]).
Proof. reflexivity. Qed.

(** Logging in as jdoe with the right password gives an access token whose
    decoded claims carry the role MEDICO, and records the login time. *)
Example login_jdoe :
  ∃ (r : @TokenResponse.t Reference.uuidlib) (d : Reference.Database) (p : Payload),
    @LoginUserUseCase.execute Reference.jose Reference.passlib Reference.pydantic Reference.uuidlib
      Reference.repositories demo_handler (login_request "jdoe" "Correct1!") 1000 demo_db
    = (Ret r, d)
    ∧ @JWTHandler.decode_token Reference.jose demo_handler
        (TokenResponse.access_token r) 1000 = Ret (Some p)
    ∧ p !! "role" = Some (JStr "MEDICO")
    ∧ p !! "type" = Some (JStr "access")
    ∧ User.last_login <$> Reference.find_user
        (λ x, bool_decide (User.username x = "jdoe")) d = Some (Some 1000).
Proof.
  eexists _, _, _. split; [vm_compute; reflexivity|].
  split; [vm_compute; reflexivity|].
  repeat split; vm_compute; reflexivity.
Qed.

(** * Further properties of the code *)

(** ** jwt_handler.py: the expiry helpers *)

(** [datetime.fromtimestamp(ts)]: the naive local time of a timestamp, as
    wall-clock seconds; it raises on a value that is no timestamp or lies
    outside the platform's range.  A payload holds no fractional number, so
    the datetime it returns is on a whole second. *)
Class Datetime : Type := {
  fromtimestamp : JValue → res Z
}.

(** [datetime.utcnow() > expiration] for an [expiration] on a whole second:
    the clock reads [now] seconds and [microsecond] microseconds. *)
Definition utcnow_gt (now microsecond expiration : Z) : bool :=
  bool_decide (now > expiration ∨ (now = expiration ∧ microsecond > 0)).

Section expiry.
Context `{Jose} `{Datetime}.

Definition get_token_expiration (self : JWTHandler.t) (token : string) (now : Z)
    : res (option Z) :=
  payload ← JWTHandler.decode_token self token now;
  if negb (truthy_dict payload) then Ret None
  else
    let exp_timestamp := default ∅ payload !! "exp" in
    if negb (truthy exp_timestamp) then Ret None
    else match exp_timestamp with
         | Some v => expiration ← fromtimestamp v; Ret (Some expiration)
         | None => Ret None
         end.

(** [now] is the clock in whole seconds, which is what the library reads
    when it decodes the token; [microsecond] is the rest of the [utcnow()]
    read that is compared with the expiry. *)
Definition is_token_expired (self : JWTHandler.t) (token : string) (now microsecond : Z)
    : res bool :=
  expiration ← get_token_expiration self token now;
  match expiration with
  | None => Ret true
  | Some expiration => Ret (utcnow_gt now microsecond expiration)
  end.

End expiry.

(** ** domain/entities/user.py: the role list of a user *)

Section user_roles.
Context `{UuidLib}.

(** [list.remove(x)]: drops the first occurrence. *)
Fixpoint list_remove (x : uuid) (l : list uuid) : list uuid :=
  match l with
  | [] => []
  | y :: l' => if bool_decide (y = x) then l' else y :: list_remove x l'
  end.

Definition with_role_ids (self : User.t) (role_ids : list uuid) (now : Z) : User.t :=
  {| User.id := User.id self;
     User.national_id_number := User.national_id_number self;
     User.full_name := User.full_name self;
     User.email := User.email self;
     User.phone := User.phone self;
     User.birth_date := User.birth_date self;
     User.address := User.address self;
     User.username := User.username self;
     User.hashed_password := User.hashed_password self;
     User.role_ids := role_ids;
     User.is_active := User.is_active self;
     User.is_superuser := User.is_superuser self;
     User.created_at := User.created_at self;
     User.updated_at := now;
     User.last_login := User.last_login self |}.

Definition add_role (self : User.t) (role_id : uuid) (now : Z) : User.t :=
  if bool_decide (role_id ∉ User.role_ids self)
  then with_role_ids self (User.role_ids self ++ [role_id]) now
  else self.

Definition remove_role (self : User.t) (role_id : uuid) (now : Z) : User.t :=
  if bool_decide (role_id ∈ User.role_ids self)
  then with_role_ids self (list_remove role_id (User.role_ids self)) now
  else self.

Definition has_role (self : User.t) (role_id : uuid) : bool :=
  bool_decide (role_id ∈ User.role_ids self).

End user_roles.

(** Clocks for the closed examples: the local time of a server on a fixed
    offset from UTC, for the years 1 to 9999 a datetime can hold. *)
Definition fixed_offset_time (offset : Z) : Datetime :=
  {| fromtimestamp v :=
       let local n :=
         if bool_decide (-62135596800 ≤ n + offset ≤ 253402300799)
         then Ret (n + offset)
         else Raise (ValueError "year is out of range") in
       match v with
       | JInt n => local n
       | JBool b => local (if b then 1 else 0)
       | _ => Raise (Exception "an integer is required")
       end |}.

(** A server five hours behind UTC, and a server on UTC. *)
Definition bogota_time : Datetime := fixed_offset_time (-18000).

Definition utc_time : Datetime := fixed_offset_time 0.

(** ** Issued tokens and their kind *)

Section issued_tokens.
Context `{Jose}.
Implicit Types (h : JWTHandler.t) (now t : Z).

(** Verifying a token the handler issued, before its expiry. *)
Lemma verify_issued_access h now t
    (user_id username email : string) (su : bool) (role : string)
    (roles : option (list string)) (kind : string) :
  jose_round_trip (JWTHandler.secret_key h) (JWTHandler.algorithm h) →
  t ≤ now + 60 * JWTHandler.access_token_expire_minutes h →
  JWTHandler.verify_token h
    (JWTHandler.create_access_token h now user_id username email su role roles) kind t
  = if bool_decide (kind = "access")
    then Ret (Some (JWTHandler.access_payload h now user_id username email su role roles))
    else Ret None.
Proof.
  intros Hrt Ha.
  pose proof (access_payload_lookup h now user_id username email su role roles)
    as (_ & _ & _ & _ & _ & _ & Hta & _).
  cbv zeta in Hta.
  rewrite verify_token_unfold,
    (decode_access_token h now t user_id username email su role roles Hrt Ha), Hta.
  destruct (decide (kind = "access")) as [->|Hne].
  - rewrite !bool_decide_eq_true_2 by reflexivity. reflexivity.
  - rewrite !bool_decide_eq_false_2 by congruence. reflexivity.
Qed.

Lemma verify_issued_refresh h now t (user_id kind : string) :
  jose_round_trip (JWTHandler.secret_key h) (JWTHandler.algorithm h) →
  t ≤ now + 86400 * JWTHandler.refresh_token_expire_days h →
  JWTHandler.verify_token h (JWTHandler.create_refresh_token h now user_id) kind t
  = if bool_decide (kind = "refresh")
    then Ret (Some (JWTHandler.refresh_payload h now user_id))
    else Ret None.
Proof.
  intros Hrt Hr.
  pose proof (refresh_payload_lookup h now user_id) as (_ & Htr & _).
  cbv zeta in Htr.
  rewrite verify_token_unfold, (decode_refresh_token h now t user_id Hrt Hr), Htr.
  destruct (decide (kind = "refresh")) as [->|Hne].
  - rewrite !bool_decide_eq_true_2 by reflexivity. reflexivity.
  - rewrite !bool_decide_eq_false_2 by congruence. reflexivity.
Qed.

(** X1: under the round-trip contract of the library, until they expire,
    an access token the handler issued verifies as an access token and is
    refused as a refresh token, and a refresh token it issued verifies as a
    refresh token and is refused as an access token. *)
Theorem issued_tokens_kind_separation h now t
    (user_id username email : string) (su : bool) (role : string)
    (roles : option (list string)) :
  jose_round_trip (JWTHandler.secret_key h) (JWTHandler.algorithm h) →
  t ≤ now + 60 * JWTHandler.access_token_expire_minutes h →
  t ≤ now + 86400 * JWTHandler.refresh_token_expire_days h →
  let access := JWTHandler.create_access_token h now user_id username email su role roles in
  let refresh := JWTHandler.create_refresh_token h now user_id in
  JWTHandler.verify_token h access "access" t
    = Ret (Some (JWTHandler.access_payload h now user_id username email su role roles))
  ∧ JWTHandler.verify_token h access "refresh" t = Ret None
  ∧ JWTHandler.verify_token h refresh "refresh" t
    = Ret (Some (JWTHandler.refresh_payload h now user_id))
  ∧ JWTHandler.verify_token h refresh "access" t = Ret None.
Proof.
  intros Hrt Ha Hr access refresh. unfold access, refresh.
  rewrite !(verify_issued_access _ _ _ _ _ _ _ _ _ _ Hrt Ha).
  rewrite !(verify_issued_refresh _ _ _ _ _ Hrt Hr).
  repeat split; reflexivity.
Qed.

End issued_tokens.

(** X1 on the demo user's tokens, one second after they were issued. *)
Lemma issued_tokens_kind_separation_witness :
  @JWTHandler.verify_token Reference.jose demo_handler demo_access_token "refresh" 1001
  = Ret None
  ∧ @JWTHandler.verify_token Reference.jose demo_handler demo_refresh_token "access" 1001
    = Ret None
  ∧ @JWTHandler.verify_token Reference.jose demo_handler demo_refresh_token "refresh" 1001
    = Ret (Some (JWTHandler.refresh_payload demo_handler 1000 demo_user_id)).
Proof.
  destruct (@issued_tokens_kind_separation Reference.jose demo_handler 1000 1001
              demo_user_id "jdoe" "jdoe@clinic.org" false "MEDICO" (Some ["MEDICO"])
              (reference_jose_round_trip _ _))
    as (_ & Har & Hrr & Hra).
  - vm_compute. discriminate.
  - vm_compute. discriminate.
  - split; [exact Har|]. split; [exact Hra|exact Hrr].
Defined.

(** ** The expiry helpers *)

Section expiry_facts.
Context `{Jose} `{Datetime}.
Implicit Types (h : JWTHandler.t) (token : string) (now : Z) (p : Payload).

Lemma get_token_expiration_decoded h token now p :
  JWTHandler.decode_token h token now = Ret (Some p) →
  get_token_expiration h token now =
    match p !! "exp" with
    | Some v => if truthy (Some v)
                then expiration ← fromtimestamp v; Ret (Some expiration)
                else Ret None
    | None => Ret None
    end.
Proof.
  intros Hdec. unfold get_token_expiration. rewrite Hdec. simpl.
  destruct (decide (p = ∅)) as [->|Hne].
  - rewrite bool_decide_eq_true_2 by reflexivity. simpl. rewrite lookup_empty. reflexivity.
  - rewrite (bool_decide_eq_false_2 _ Hne). simpl.
    destruct (p !! "exp") as [[|b|n|s|l]|]; simpl; try reflexivity.
    + destruct b; reflexivity.
    + destruct (bool_decide (n = 0)); reflexivity.
    + destruct (bool_decide (s = EmptyString)); reflexivity.
    + destruct (bool_decide (l = [])); reflexivity.
Qed.

(** X2: [is_token_expired] errs on the side of "expired".  A token that
    [decode_token] rejects is reported expired, and so is a decoded token
    with no [exp] (or a zero one); a token reported not expired is one that
    [decode_token] accepts and whose [exp], read as local time, is not
    before the clock: the clock is before it, or on its very second with no
    microsecond gone. *)
Theorem is_token_expired_fails_closed h token now (microsecond : Z) :
  (JWTHandler.decode_token h token now = Ret None →
     is_token_expired h token now microsecond = Ret true)
  ∧ (∀ p, JWTHandler.decode_token h token now = Ret (Some p) →
          truthy (p !! "exp") = false →
          is_token_expired h token now microsecond = Ret true)
  ∧ (is_token_expired h token now microsecond = Ret false →
     ∃ p v (expiration : Z),
       JWTHandler.decode_token h token now = Ret (Some p)
       ∧ p !! "exp" = Some v ∧ truthy (Some v) = true
       ∧ fromtimestamp v = Ret expiration ∧ now ≤ expiration
       ∧ (now = expiration → microsecond ≤ 0)).
Proof.
  split; [|split].
  - intros Hdec. unfold is_token_expired, get_token_expiration. rewrite Hdec. reflexivity.
  - intros p Hdec Hexp. unfold is_token_expired.
    rewrite (get_token_expiration_decoded _ _ _ _ Hdec).
    destruct (p !! "exp") as [v|]; [|reflexivity]. rewrite Hexp. reflexivity.
  - unfold is_token_expired.
    destruct (JWTHandler.decode_token h token now) as [[p|]|e] eqn:Hdec.
    + rewrite (get_token_expiration_decoded _ _ _ _ Hdec).
      destruct (p !! "exp") as [v|] eqn:Hv; [|discriminate].
      destruct (truthy (Some v)) eqn:Htr; [|discriminate].
      destruct (fromtimestamp v) as [expiration|e] eqn:Hts; [|discriminate].
      simpl. intros Heq. injection Heq as Hb.
      apply bool_decide_eq_false in Hb.
      exists p, v, expiration.
      split; [reflexivity|]. split; [exact Hv|]. split; [exact Htr|].
      split; [exact Hts|]. split; lia.
    + unfold get_token_expiration. rewrite Hdec. discriminate.
    + unfold get_token_expiration. rewrite Hdec. discriminate.
Qed.

End expiry_facts.

(** X2 on a string that is no token, and on the demo access token read on
    a UTC server one second after it was issued. *)
Lemma is_token_expired_fails_closed_witness :
  @is_token_expired Reference.jose utc_time demo_handler "invalid.token.here" 1000 250000
  = Ret true
  ∧ ∃ p v (expiration : Z),
      @JWTHandler.decode_token Reference.jose demo_handler demo_access_token 1001
        = Ret (Some p)
      ∧ p !! "exp" = Some v ∧ truthy (Some v) = true
      ∧ @fromtimestamp utc_time v = Ret expiration ∧ 1001 ≤ expiration
      ∧ (1001 = expiration → 250000 ≤ 0).
Proof.
  split.
  - apply (@is_token_expired_fails_closed Reference.jose utc_time). reflexivity.
  - apply (@is_token_expired_fails_closed Reference.jose utc_time demo_handler
             demo_access_token 1001 250000).
    vm_compute. reflexivity.
Defined.

Section expiry_local_time.
Context `{Jose}.

(** X3: [is_token_expired] compares the UTC clock with the expiry read as
    local time.  Take an access token the handler issued at [now], with an
    expiry other than the epoch, on a server where [fromtimestamp] reads
    that expiry [offset] seconds ahead of UTC.  Under the round-trip
    contract, at a clock reading of [t] seconds and [microsecond]
    microseconds, [t] up to the expiry, the token is reported expired
    exactly when the reading is past [expiry + offset]: [t] is a later
    second, or that very second with a microsecond gone. *)
Theorem is_token_expired_local_time (D : Datetime) (offset : Z)
    (h : JWTHandler.t) (now t microsecond : Z)
    (user_id username email : string) (su : bool) (role : string)
    (roles : option (list string)) :
  let expiry := now + 60 * JWTHandler.access_token_expire_minutes h in
  jose_round_trip (JWTHandler.secret_key h) (JWTHandler.algorithm h) →
  @fromtimestamp D (JInt expiry) = Ret (expiry + offset) →
  t ≤ expiry →
  expiry ≠ 0 →
  @is_token_expired _ D h
    (JWTHandler.create_access_token h now user_id username email su role roles)
    t microsecond
  = Ret (bool_decide (t > expiry + offset ∨ (t = expiry + offset ∧ microsecond > 0))).
Proof.
  intros expiry Hrt Hlocal Hexp Hnz. unfold is_token_expired.
  rewrite (get_token_expiration_decoded _ _ _ _
             (decode_access_token h now t user_id username email su role roles Hrt Hexp)).
  pose proof (access_payload_lookup h now user_id username email su role roles)
    as (_ & _ & _ & _ & _ & _ & _ & Hex & _).
  cbv zeta in Hex. rewrite Hex. simpl.
  rewrite (bool_decide_eq_false_2 _ Hnz). simpl.
  fold expiry. rewrite Hlocal. reflexivity.
Qed.

End expiry_local_time.

(** X3 on the demo access token, issued at second 1000 for thirty minutes.
    A server on UTC reports it not expired when issued and on the first
    instant of second 2800, its expiry, and expired for the rest of that
    second, in which [decode_token] still accepts it; a server five hours
    behind UTC reports it expired the second it was issued. *)
Lemma is_token_expired_local_time_witness :
  @is_token_expired Reference.jose utc_time demo_handler demo_access_token 1000 0 = Ret false
  ∧ @is_token_expired Reference.jose utc_time demo_handler demo_access_token 2800 0
    = Ret false
  ∧ @is_token_expired Reference.jose utc_time demo_handler demo_access_token 2800 1
    = Ret true
  ∧ @JWTHandler.decode_token Reference.jose demo_handler demo_access_token 2800
    = Ret (Some (JWTHandler.access_payload demo_handler 1000 demo_user_id "jdoe"
                   "jdoe@clinic.org" false "MEDICO" (Some ["MEDICO"])))
  ∧ @is_token_expired Reference.jose bogota_time demo_handler demo_access_token 1000 0
    = Ret true.
Proof.
  split; [|split; [|split; [|split]]].
  - apply (@is_token_expired_local_time Reference.jose utc_time 0 demo_handler 1000 1000 0).
    + apply reference_jose_round_trip.
    + vm_compute. reflexivity.
    + vm_compute. discriminate.
    + vm_compute. discriminate.
  - apply (@is_token_expired_local_time Reference.jose utc_time 0 demo_handler 1000 2800 0).
    + apply reference_jose_round_trip.
    + vm_compute. reflexivity.
    + vm_compute. discriminate.
    + vm_compute. discriminate.
  - apply (@is_token_expired_local_time Reference.jose utc_time 0 demo_handler 1000 2800 1).
    + apply reference_jose_round_trip.
    + vm_compute. reflexivity.
    + vm_compute. discriminate.
    + vm_compute. discriminate.
  - vm_compute. reflexivity.
  - apply (@is_token_expired_local_time Reference.jose bogota_time (-18000)
             demo_handler 1000 1000 0).
    + apply reference_jose_round_trip.
    + vm_compute. reflexivity.
    + vm_compute. discriminate.
    + vm_compute. discriminate.
Defined.

(** ** The revocation store under a run of additions *)

(** [add_token] called for each token of a list in turn, each call at its
    own clock time. *)
Definition add_tokens (s : TokenBlacklist.t) (l : list (string * Z)) : TokenBlacklist.t :=
  foldl (λ b tn, TokenBlacklist.add_token b tn.1 tn.2) s l.

Lemma add_tokens_blacklist (l : list (string * Z)) (s : TokenBlacklist.t) :
  TokenBlacklist._blacklist (add_tokens s l)
  = list_to_set l.*1 ∪ TokenBlacklist._blacklist s.
Proof.
  revert s. induction l as [|[t n] l IH]; intros s.
  - simpl. rewrite union_empty_l_L. reflexivity.
  - unfold add_tokens in *. simpl. rewrite IH, add_token_blacklist.
    apply set_eq. intros x. rewrite !elem_of_union, elem_of_singleton. tauto.
Qed.

(** X4: the store never evicts.  After any run of [add_token] calls, at
    whatever clock times (also hours apart, when the periodic cleanup
    fires), a token is blacklisted exactly when it was blacklisted before
    the run or was added during it. *)
Theorem blacklist_never_evicts (s : TokenBlacklist.t) (l : list (string * Z)) (t : string) :
  TokenBlacklist.is_blacklisted (add_tokens s l) t
  = TokenBlacklist.is_blacklisted s t || bool_decide (t ∈ l.*1).
Proof.
  apply eq_true_iff_eq.
  rewrite orb_true_iff, !is_blacklisted_spec, bool_decide_eq_true, add_tokens_blacklist.
  rewrite elem_of_union, elem_of_list_to_set. tauto.
Qed.

(** X5: adding distinct tokens that the store does not hold yet raises its
    size by their number. *)
Theorem blacklist_size_after_additions (s : TokenBlacklist.t) (l : list (string * Z)) :
  NoDup l.*1 →
  (∀ t, t ∈ l.*1 → TokenBlacklist.is_blacklisted s t = false) →
  TokenBlacklist.size (add_tokens s l) = (TokenBlacklist.size s + length l)%nat.
Proof.
  intros Hnodup Hnew. unfold TokenBlacklist.size. rewrite add_tokens_blacklist.
  rewrite size_union.
  - rewrite (size_list_to_set _ Hnodup), length_fmap. lia.
  - intros t Hin Hs. apply elem_of_list_to_set in Hin.
    specialize (Hnew t Hin). apply is_blacklisted_spec in Hs.
    rewrite Hs in Hnew. discriminate.
Qed.

(** X5 on the run of the logout script: one token, then three more. *)
Lemma blacklist_size_after_additions_witness :
  TokenBlacklist.size
    (add_tokens (TokenBlacklist.add_token (TokenBlacklist.init 0) "test.jwt.token" 1)
       [("token1.test.abc", 2); ("token2.test.def", 3); ("token3.test.ghi", 4000)])
  = 4%nat.
Proof.
  apply (blacklist_size_after_additions
           (TokenBlacklist.add_token (TokenBlacklist.init 0) "test.jwt.token" 1)
           [("token1.test.abc", 2); ("token2.test.def", 3); ("token3.test.ghi", 4000)]).
  - apply (bool_decide_unpack _). vm_compute. exact I.
  - intros t Ht. vm_compute in Ht.
    repeat (apply elem_of_cons in Ht as [->|Ht]; [vm_compute; reflexivity|]).
    apply elem_of_nil in Ht. contradiction.
Defined.

(** ** The gates on the claims a login issues *)

Section gates_on_issued_claims.
Context `{UuidLib}.

(** X6: on the claims that login (or refresh) signs for a user, the
    superuser gate lets the request through exactly when the user is a
    superuser, and the RRHH gate exactly when the user is a superuser or
    the first of the user's active roles, in the order the repository gave
    them, has the code "RRHH"; a gate that lets the claims through returns
    them unchanged. *)
Theorem gates_on_issued_claims (h : JWTHandler.t) (now : Z)
    (user_id username email : string) (su : bool) (user_roles : list Role.t) :
  let p := JWTHandler.access_payload h now user_id username email su
             (LoginUserUseCase.primary_role su user_roles)
             (Some (LoginUserUseCase.role_codes su user_roles)) in
  dependencies.get_current_superuser p
    = (if su then Ret p
       else Raise (HTTPException HTTP_403_FORBIDDEN "Not enough permissions"))
  ∧ dependencies.get_current_rrhh_user p
    = (if su || bool_decide (head (active_codes user_roles) = Some "RRHH") then Ret p
       else Raise (HTTPException HTTP_403_FORBIDDEN
                     "Only users with RRHH role can perform this action")).
Proof.
  intros p.
  pose proof (access_payload_lookup h now user_id username email su
                (LoginUserUseCase.primary_role su user_roles)
                (Some (LoginUserUseCase.role_codes su user_roles)))
    as (_ & _ & _ & Hsu & Hrole & _).
  cbv zeta in Hsu, Hrole. fold p in Hsu, Hrole. split.
  - unfold dependencies.get_current_superuser. rewrite Hsu. simpl.
    destruct su; reflexivity.
  - unfold dependencies.get_current_rrhh_user. rewrite Hrole.
    destruct su.
    + rewrite primary_role_superuser.
      rewrite bool_decide_eq_false_2 by (intros Hne; apply Hne; reflexivity). reflexivity.
    + cbn [orb]. unfold active_codes.
      destruct (List.filter Role.is_active user_roles) as [|r rest] eqn:Hact.
      * rewrite (primary_role_no_active _ Hact). reflexivity.
      * rewrite (primary_role_first_active _ _ _ Hact). cbn [List.map head].
        destruct (decide (Role.code r = "RRHH")) as [Hr|Hr].
        -- rewrite Hr. rewrite bool_decide_eq_false_2 by (intros Hne; apply Hne; reflexivity).
           rewrite bool_decide_eq_true_2 by reflexivity. reflexivity.
        -- rewrite bool_decide_eq_true_2 by congruence.
           rewrite bool_decide_eq_false_2 by congruence. reflexivity.
Qed.

End gates_on_issued_claims.

(** An ordinary user whose second active role is RRHH does not pass the
    RRHH gate; with RRHH first, the same user does. *)
Example rrhh_gate_depends_on_role_order :
  is_Ret (dependencies.get_current_rrhh_user
            (JWTHandler.access_payload demo_handler 1000 demo_user_id "jdoe"
               "jdoe@clinic.org" false
               (LoginUserUseCase.primary_role false
                  [demo_role 9 "MEDICO" true; demo_role 8 "RRHH" true])
               (Some (LoginUserUseCase.role_codes false
                        [demo_role 9 "MEDICO" true; demo_role 8 "RRHH" true])))) = false
  ∧ is_Ret (dependencies.get_current_rrhh_user
              (JWTHandler.access_payload demo_handler 1000 demo_user_id "jdoe"
                 "jdoe@clinic.org" false
                 (LoginUserUseCase.primary_role false
                    [demo_role 8 "RRHH" true; demo_role 9 "MEDICO" true])
                 (Some (LoginUserUseCase.role_codes false
                          [demo_role 8 "RRHH" true; demo_role 9 "MEDICO" true])))) = true.
Proof. split; vm_compute; reflexivity. Qed.

(** ** Login beyond the credential checks *)

Section login_outcomes.
Context `{Jose} `{PasswordContext} `{Pydantic} `{Repositories}.
Implicit Types (h : JWTHandler.t) (request : LoginRequest.t) (now : Z) (d : DB) (u : User.t).

(** What [execute] does once the credentials have been accepted. *)
Lemma login_after_checks h request now d u :
  located (LoginRequest.identifier request) d u →
  User.is_active u = true →
  pwd_verify (LoginRequest.password request) (User.hashed_password u) = Ret true →
  LoginUserUseCase.execute h request now d =
    match update (User.update_last_login u now) d with
    | (Raise e, d') => (Raise e, d')
    | (Ret _, d') =>
        match get_user_roles (User.id u) d' with
        | Raise e => (Raise e, d')
        | Ret user_roles =>
            let primary_role := LoginUserUseCase.primary_role (User.is_superuser u) user_roles in
            let role_codes := LoginUserUseCase.role_codes (User.is_superuser u) user_roles in
            match validate_email_str (User.email u) with
            | Raise e => (Raise e, d')
            | Ret email =>
            (Ret {| TokenResponse.access_token :=
                      JWTHandler.create_access_token h now (uuid_str (User.id u))
                        (User.username u) (User.email u) (User.is_superuser u)
                        primary_role (Some role_codes);
                    TokenResponse.refresh_token :=
                      JWTHandler.create_refresh_token h now (uuid_str (User.id u));
                    TokenResponse.token_type := "bearer";
                    TokenResponse.expires_in := JWTHandler.access_token_expire_minutes h * 60;
                    TokenResponse.user :=
                      {| UserResponse.id := User.id u;
                         UserResponse.national_id_number := User.national_id_number u;
                         UserResponse.full_name := User.full_name u;
                         UserResponse.email := email;
                         UserResponse.phone := User.phone u;
                         UserResponse.birth_date := User.birth_date u;
                         UserResponse.address := User.address u;
                         UserResponse.role := primary_role;
                         UserResponse.roles := None;
                         UserResponse.username := User.username u;
                         UserResponse.is_active := User.is_active u;
                         UserResponse.is_superuser := User.is_superuser u;
                         UserResponse.created_at := User.created_at u;
                         UserResponse.updated_at := now;
                         UserResponse.last_login := Some now |} |}, d')
            end
        end
    end.
Proof.
  intros Hloc Hact Hpw.
  unfold LoginUserUseCase.execute, mbind, StateRes_bind, reading, raise, pure_call,
    mret, StateRes_ret.
  destruct Hloc as [He|[He Hu]]; rewrite He; [|rewrite Hu]; rewrite Hact; simpl;
    rewrite Hpw; simpl;
    destruct (update (User.update_last_login u now) d) as [[u'|e] d']; try reflexivity;
    destruct (get_user_roles (User.id u) d') as [user_roles|e]; try reflexivity;
    simpl; destruct (validate_email_str (User.email u)) as [email|e]; try reflexivity;
    simpl; rewrite ?Hact; reflexivity.
Qed.

(** X7: take a login whose credentials are accepted, whose last-login write
    succeeds and whose roles can be read.  When the stored email passes the
    response model's [EmailStr] validation, the login returns a bearer token
    pair issued at the login time for the located user: the access token
    carries the stored email and the primary role and role codes resolved
    from the roles read after the write, the lifetime is reported in
    seconds, the user in the response has the validated email and the login
    time as last login, and the database is the one the write left.  When
    the stored email fails the validation, the login raises the validation
    error and returns no token, and the last-login write stays in the
    database. *)
Theorem login_success h request now d u (u' : User.t) (d' : DB) (user_roles : list Role.t) :
  located (LoginRequest.identifier request) d u →
  User.is_active u = true →
  pwd_verify (LoginRequest.password request) (User.hashed_password u) = Ret true →
  update (User.update_last_login u now) d = (Ret u', d') →
  get_user_roles (User.id u) d' = Ret user_roles →
  (∀ email, validate_email_str (User.email u) = Ret email →
     ∃ r, LoginUserUseCase.execute h request now d = (Ret r, d')
       ∧ TokenResponse.access_token r
         = JWTHandler.create_access_token h now (uuid_str (User.id u))
             (User.username u) (User.email u) (User.is_superuser u)
             (LoginUserUseCase.primary_role (User.is_superuser u) user_roles)
             (Some (LoginUserUseCase.role_codes (User.is_superuser u) user_roles))
       ∧ TokenResponse.refresh_token r
         = JWTHandler.create_refresh_token h now (uuid_str (User.id u))
       ∧ TokenResponse.token_type r = "bearer"
       ∧ TokenResponse.expires_in r = JWTHandler.access_token_expire_minutes h * 60
       ∧ UserResponse.email (TokenResponse.user r) = email
       ∧ UserResponse.role (TokenResponse.user r)
         = LoginUserUseCase.primary_role (User.is_superuser u) user_roles
       ∧ UserResponse.roles (TokenResponse.user r) = None
       ∧ UserResponse.last_login (TokenResponse.user r) = Some now)
  ∧ (∀ e, validate_email_str (User.email u) = Raise e →
       LoginUserUseCase.execute h request now d = (Raise e, d')).
Proof.
  intros Hloc Hact Hpw Hup Hroles.
  rewrite (login_after_checks _ _ _ _ _ Hloc Hact Hpw), Hup, Hroles. cbv zeta. split.
  - intros email ->. eexists. split; [reflexivity|]. repeat split; reflexivity.
  - intros e ->. reflexivity.
Qed.

(** X8: after the credentials have been accepted, a failing last-login
    write fails the login with the error of the write, and a failure to
    read the roles fails it with that error while the last-login write
    stays in the database; neither returns a token. *)
Theorem login_fails_after_checks h request now d u :
  located (LoginRequest.identifier request) d u →
  User.is_active u = true →
  pwd_verify (LoginRequest.password request) (User.hashed_password u) = Ret true →
  (∀ e d', update (User.update_last_login u now) d = (Raise e, d') →
     LoginUserUseCase.execute h request now d = (Raise e, d'))
  ∧ (∀ u' d' e, update (User.update_last_login u now) d = (Ret u', d') →
     get_user_roles (User.id u) d' = Raise e →
     LoginUserUseCase.execute h request now d = (Raise e, d')).
Proof.
  intros Hloc Hact Hpw. rewrite (login_after_checks _ _ _ _ _ Hloc Hact Hpw). split.
  - intros e d' Hup. rewrite Hup. reflexivity.
  - intros u' d' e Hup Hroles. rewrite Hup, Hroles. reflexivity.
Qed.

(** X9: the login route answers every failure of the use case with an HTTP
    error: 401 carrying the message of the error when the use case raised a
    [ValueError] (also one that came from the repository's update), 500
    for any other exception; nothing else leaves the route. *)
Theorem login_route_errors h request now d (e : exn) (d' : DB) :
  routes.login request h now d = (Raise e, d') →
  (∃ msg, LoginUserUseCase.execute h request now d = (Raise (ValueError msg), d')
          ∧ e = HTTPException HTTP_401_UNAUTHORIZED msg)
  ∨ (∃ e0, LoginUserUseCase.execute h request now d = (Raise e0, d')
           ∧ isinstance_ValueError e0 = false
           ∧ e = HTTPException HTTP_500_INTERNAL_SERVER_ERROR
                   ("Internal server error: " +:+ exn_str e0)).
Proof.
  unfold routes.login, try_except.
  destruct (LoginUserUseCase.execute h request now d) as [[r|e0] d0]; [discriminate|].
  destruct e0 as [m|m|m|m|c m|m]; simpl; unfold routes.internal_server_error, raise;
    intros Heq; injection Heq as <- <-.
  4: { left. exists m. split; reflexivity. }
  all: right; eexists; split; [reflexivity|]; split; reflexivity.
Qed.

End login_outcomes.

(** ** Login outcomes on the concrete database *)

(** The demo database behind a repository whose role query fails, and
    behind one whose update fails. *)
Definition failing_roles_repositories : @Repositories Reference.uuidlib :=
  @Build_Repositories Reference.uuidlib Reference.Database
    (@get_by_email _ Reference.repositories)
    (@get_by_username _ Reference.repositories)
    Reference.repo_get_by_id
    Reference.repo_update
    (λ _ _, Raise (Exception "Failed to get user roles: connection lost")).

Definition failing_update_repositories : @Repositories Reference.uuidlib :=
  @Build_Repositories Reference.uuidlib Reference.Database
    (@get_by_email _ Reference.repositories)
    (@get_by_username _ Reference.repositories)
    Reference.repo_get_by_id
    (λ _ d, (Raise (Exception "Failed to update user: connection lost"), d))
    Reference.repo_get_user_roles.

(** The demo database once jdoe's login at second 1000 is recorded. *)
Definition demo_db_after_login : Reference.Database :=
  (Reference.repo_update (User.update_last_login jdoe 1000) demo_db).2.

(** A database whose only user is the administrator of a development
    deployment, with an address on the reserved [.local] domain. *)
Definition local_admin : @User.t Reference.uuidlib :=
  demo_user 7 "admin" "admin@clinic.local" "hashed:Admin123!" true true.

Definition local_db : Reference.Database :=
  {| Reference.users := [local_admin]; Reference.assigned := [] |}.

Definition local_db_after_login : Reference.Database :=
  (Reference.repo_update (User.update_last_login local_admin 1000) local_db).2.

(** X7 on jdoe's login, which succeeds, and on the login of the
    administrator, whose address the response model rejects: the login
    raises and the database has recorded it. *)
Lemma login_success_witness :
  (∃ r : @TokenResponse.t Reference.uuidlib,
    @LoginUserUseCase.execute Reference.jose Reference.passlib Reference.pydantic Reference.uuidlib
      Reference.repositories demo_handler (login_request "jdoe" "Correct1!") 1000 demo_db
    = (Ret r, demo_db_after_login)
    ∧ TokenResponse.access_token r
      = @JWTHandler.create_access_token Reference.jose demo_handler 1000
          (@uuid_str Reference.uuidlib (User.id jdoe))
          (User.username jdoe) (User.email jdoe) (User.is_superuser jdoe)
          (LoginUserUseCase.primary_role (User.is_superuser jdoe) [demo_role 9 "MEDICO" true])
          (Some (LoginUserUseCase.role_codes (User.is_superuser jdoe)
                   [demo_role 9 "MEDICO" true]))
    ∧ TokenResponse.refresh_token r
      = @JWTHandler.create_refresh_token Reference.jose demo_handler 1000
          (@uuid_str Reference.uuidlib (User.id jdoe))
    ∧ TokenResponse.token_type r = "bearer"
    ∧ TokenResponse.expires_in r = JWTHandler.access_token_expire_minutes demo_handler * 60
    ∧ UserResponse.email (TokenResponse.user r) = "jdoe@clinic.org"
    ∧ UserResponse.role (TokenResponse.user r)
      = LoginUserUseCase.primary_role (User.is_superuser jdoe) [demo_role 9 "MEDICO" true]
    ∧ UserResponse.roles (TokenResponse.user r) = None
    ∧ UserResponse.last_login (TokenResponse.user r) = Some 1000)
  ∧ @LoginUserUseCase.execute Reference.jose Reference.passlib Reference.pydantic Reference.uuidlib
      Reference.repositories demo_handler (login_request "admin" "Admin123!") 1000 local_db
    = (Raise (ValueError "value is not a valid email address"), local_db_after_login)
  ∧ local_db_after_login ≠ local_db.
Proof.
  split; [|split].
  - apply (@login_success Reference.jose Reference.passlib Reference.pydantic Reference.uuidlib
             Reference.repositories demo_handler (login_request "jdoe" "Correct1!")
             1000 demo_db jdoe (User.update_last_login jdoe 1000) demo_db_after_login
             [demo_role 9 "MEDICO" true]).
    + right. split; reflexivity.
    + reflexivity.
    + reflexivity.
    + reflexivity.
    + reflexivity.
    + reflexivity.
  - apply (@login_success Reference.jose Reference.passlib Reference.pydantic Reference.uuidlib
             Reference.repositories demo_handler (login_request "admin" "Admin123!")
             1000 local_db local_admin (User.update_last_login local_admin 1000)
             local_db_after_login []).
    + right. split; reflexivity.
    + reflexivity.
    + reflexivity.
    + reflexivity.
    + reflexivity.
    + reflexivity.
  - discriminate.
Defined.

(** At the route the validation error, a [ValueError], is answered 401. *)
Example login_route_invalid_email :
  @routes.login Reference.jose Reference.passlib Reference.pydantic Reference.uuidlib
    Reference.repositories (login_request "admin" "Admin123!") demo_handler 1000 local_db
  = (Raise (HTTPException HTTP_401_UNAUTHORIZED "value is not a valid email address"),
     local_db_after_login).
Proof. vm_compute. reflexivity. Qed.

(** X8 on jdoe's login when the update fails, and when the role query
    fails after the update: the second leaves the login recorded. *)
Lemma login_fails_after_checks_witness :
  @LoginUserUseCase.execute Reference.jose Reference.passlib Reference.pydantic Reference.uuidlib
    failing_update_repositories demo_handler (login_request "jdoe" "Correct1!") 1000 demo_db
  = (Raise (Exception "Failed to update user: connection lost"), demo_db)
  ∧ @LoginUserUseCase.execute Reference.jose Reference.passlib Reference.pydantic Reference.uuidlib
      failing_roles_repositories demo_handler (login_request "jdoe" "Correct1!") 1000 demo_db
    = (Raise (Exception "Failed to get user roles: connection lost"), demo_db_after_login).
Proof.
  split.
  - apply (@login_fails_after_checks Reference.jose Reference.passlib Reference.pydantic Reference.uuidlib
             failing_update_repositories demo_handler (login_request "jdoe" "Correct1!")
             1000 demo_db jdoe).
    + right. split; reflexivity.
    + reflexivity.
    + reflexivity.
    + reflexivity.
  - apply (@login_fails_after_checks Reference.jose Reference.passlib Reference.pydantic Reference.uuidlib
             failing_roles_repositories demo_handler (login_request "jdoe" "Correct1!")
             1000 demo_db jdoe)
      with (u' := User.update_last_login jdoe 1000).
    + right. split; reflexivity.
    + reflexivity.
    + reflexivity.
    + reflexivity.
    + reflexivity.
Defined.

Lemma login_route_wrong_password :
  @routes.login Reference.jose Reference.passlib Reference.pydantic Reference.uuidlib Reference.repositories
    (login_request "jdoe" "Wrong1!") demo_handler 1000 demo_db
  = (Raise (HTTPException HTTP_401_UNAUTHORIZED "Invalid credentials"), demo_db).
Proof. vm_compute. reflexivity. Qed.

(** X9 on a login with a wrong password. *)
Lemma login_route_errors_witness :
  (∃ msg,
     @LoginUserUseCase.execute Reference.jose Reference.passlib Reference.pydantic Reference.uuidlib
       Reference.repositories demo_handler (login_request "jdoe" "Wrong1!") 1000 demo_db
     = (Raise (ValueError msg), demo_db)
     ∧ HTTPException HTTP_401_UNAUTHORIZED "Invalid credentials"
       = HTTPException HTTP_401_UNAUTHORIZED msg)
  ∨ (∃ e0,
       @LoginUserUseCase.execute Reference.jose Reference.passlib Reference.pydantic Reference.uuidlib
         Reference.repositories demo_handler (login_request "jdoe" "Wrong1!") 1000 demo_db
       = (Raise e0, demo_db)
       ∧ isinstance_ValueError e0 = false
       ∧ HTTPException HTTP_401_UNAUTHORIZED "Invalid credentials"
         = HTTPException HTTP_500_INTERNAL_SERVER_ERROR
             ("Internal server error: " +:+ exn_str e0)).
Proof.
  apply (@login_route_errors Reference.jose Reference.passlib Reference.pydantic Reference.uuidlib
           Reference.repositories).
  apply login_route_wrong_password.
Defined.

(** ** Logout *)

Section logout.
Context `{Jose} `{Repositories}.
Implicit Types (settings : Settings.t) (token : string) (now t : Z) (w : app.World)
  (p : Payload).

(** The blacklist a request at time [t] works on: the singleton, created
    at [t] when no request has asked for it before. *)
Definition store_of w t : TokenBlacklist.t :=
  default (TokenBlacklist.init t) (app._token_blacklist_instance w).

Lemma get_blacklist_run w t :
  app.get_blacklist t w = (Ret (store_of w t), app.with_blacklist w (Some (store_of w t))).
Proof.
  unfold app.get_blacklist, store_of, TokenBlacklist.get_token_blacklist.
  destruct (app._token_blacklist_instance w); reflexivity.
Qed.

Lemma current_user_run settings token t w :
  app.current_user settings token t w
  = (dependencies.get_current_user token (dependencies.get_jwt_handler settings)
       (store_of w t) t,
     app.with_blacklist w (Some (store_of w t))).
Proof.
  unfold app.current_user, mbind, StateRes_bind, pure_call.
  rewrite get_blacklist_run. reflexivity.
Qed.

Lemma store_of_with_blacklist w (b : TokenBlacklist.t) t :
  store_of (app.with_blacklist w (Some b)) t = b.
Proof. reflexivity. Qed.

Lemma store_of_blacklisted w t t' token :
  TokenBlacklist.is_blacklisted (store_of w t) token
  = TokenBlacklist.is_blacklisted (store_of w t') token.
Proof.
  unfold store_of. destruct (app._token_blacklist_instance w); [reflexivity|].
  simpl. rewrite !fresh_store_holds_nothing. reflexivity.
Qed.

(** The gate reads the blacklist only through the membership of the token
    presented. *)
Lemma get_current_user_ext token (h : JWTHandler.t) (b b' : TokenBlacklist.t) t :
  TokenBlacklist.is_blacklisted b token = TokenBlacklist.is_blacklisted b' token →
  dependencies.get_current_user token h b t = dependencies.get_current_user token h b' t.
Proof. intros Heq. unfold dependencies.get_current_user. rewrite Heq. reflexivity. Qed.

Lemma get_current_user_revoked token (h : JWTHandler.t) (b : TokenBlacklist.t) t :
  TokenBlacklist.is_blacklisted b token = true →
  dependencies.get_current_user token h b t
  = Raise (HTTPException HTTP_401_UNAUTHORIZED "Token has been revoked").
Proof. intros Hb. unfold dependencies.get_current_user. rewrite Hb. reflexivity. Qed.

Lemma get_current_user_accepted token (h : JWTHandler.t) (b : TokenBlacklist.t) t p :
  dependencies.get_current_user token h b t = Ret p →
  TokenBlacklist.is_blacklisted b token = false
  ∧ JWTHandler.verify_token h token "access" t = Ret (Some p).
Proof.
  unfold dependencies.get_current_user.
  destruct (TokenBlacklist.is_blacklisted b token); [discriminate|].
  destruct (JWTHandler.verify_token h token "access" t) as [[q|]|e] eqn:Hv;
    simpl; try discriminate.
  destruct (negb (negb (bool_decide (q = ∅)))); [discriminate|].
  intros Heq. injection Heq as ->. split; reflexivity.
Qed.

(** The logout endpoint once the gate has accepted the token. *)
Lemma post_auth_logout_run settings token now w p :
  (app.current_user settings token now w).1 = Ret p →
  app.post_auth_logout settings token now w =
    let '(r, b) := routes.logout token p now (store_of w now) in
    (r, app.with_blacklist w (Some b)).
Proof.
  rewrite current_user_run. simpl. intros Hgate.
  unfold app.post_auth_logout, mbind, StateRes_bind.
  rewrite current_user_run, Hgate, get_blacklist_run, store_of_with_blacklist.
  unfold app.on_blacklist. destruct (routes.logout token p now (store_of w now)).
  reflexivity.
Qed.

(** X10: logging out revokes exactly the token presented.  When the gate
    accepts a non-empty token whose claims carry a non-empty string [sub],
    the logout endpoint succeeds and leaves the database untouched; from
    then on the gate rejects this token as revoked at every time, a second
    logout with it gets that same 401 and changes nothing, and every other
    token is answered by the gate as it was before the logout. *)
Theorem logout_revokes_presented_token settings token now w p (uid : string) :
  token ≠ EmptyString →
  (app.current_user settings token now w).1 = Ret p →
  p !! "sub" = Some (JStr uid) →
  uid ≠ EmptyString →
  let w' := (app.post_auth_logout settings token now w).2 in
  is_Ret (app.post_auth_logout settings token now w).1 = true
  ∧ app.db w' = app.db w
  ∧ (∀ t, (app.current_user settings token t w').1
          = Raise (HTTPException HTTP_401_UNAUTHORIZED "Token has been revoked"))
  ∧ (∀ t, app.post_auth_logout settings token t w'
          = (Raise (HTTPException HTTP_401_UNAUTHORIZED "Token has been revoked"), w'))
  ∧ (∀ token' t, token' ≠ token →
       (app.current_user settings token' t w').1 = (app.current_user settings token' t w).1).
Proof.
  intros Htoken Hgate Hsub Huid.
  rewrite (post_auth_logout_run _ _ _ _ _ Hgate).
  unfold routes.logout, try_except, LogoutUserUseCase.execute.
  rewrite (bool_decide_eq_false_2 _ Htoken), Hsub, (bool_decide_eq_false_2 _ Huid).
  cbv zeta. cbn [fst snd].
  set (b' := TokenBlacklist.add_token (store_of w now) token now).
  assert (Hin : TokenBlacklist.is_blacklisted b' token = true).
  { unfold b'. rewrite is_blacklisted_add.
    rewrite bool_decide_eq_true_2 by reflexivity. reflexivity. }
  split; [reflexivity|]. split; [reflexivity|]. split; [|split].
  - intros t. rewrite current_user_run. cbn [fst]. rewrite store_of_with_blacklist.
    apply get_current_user_revoked, Hin.
  - intros t. unfold app.post_auth_logout, mbind, StateRes_bind.
    rewrite current_user_run, store_of_with_blacklist.
    rewrite (get_current_user_revoked _ _ _ _ Hin). reflexivity.
  - intros token' t Hne. rewrite !current_user_run. cbn [fst].
    rewrite store_of_with_blacklist. apply get_current_user_ext.
    unfold b'. rewrite is_blacklisted_add.
    rewrite (bool_decide_eq_false_2 _ Hne). simpl. apply store_of_blacklisted.
Qed.

(** X11: a token the gate accepts but whose claims have no non-empty
    string [sub] cannot be logged out: the endpoint answers 400, and the
    gate goes on answering the token as before. *)
Theorem logout_needs_subject settings token now w p :
  token ≠ EmptyString →
  (app.current_user settings token now w).1 = Ret p →
  (∀ uid, p !! "sub" = Some (JStr uid) → uid = EmptyString) →
  let w' := (app.post_auth_logout settings token now w).2 in
  (app.post_auth_logout settings token now w).1
  = Raise (HTTPException HTTP_400_BAD_REQUEST "User ID must be a non-empty string")
  ∧ (∀ t, (app.current_user settings token t w').1 = (app.current_user settings token t w).1).
Proof.
  intros Htoken Hgate Hsub.
  rewrite (post_auth_logout_run _ _ _ _ _ Hgate).
  assert (Hrun : routes.logout token p now (store_of w now)
                 = (Raise (HTTPException HTTP_400_BAD_REQUEST
                             "User ID must be a non-empty string"), store_of w now)).
  { unfold routes.logout, try_except, LogoutUserUseCase.execute.
    rewrite (bool_decide_eq_false_2 _ Htoken).
    destruct (p !! "sub") as [[|b|n|s|l]|] eqn:Hs; try reflexivity.
    rewrite (Hsub s eq_refl). reflexivity. }
  rewrite Hrun. cbv zeta. cbn [fst snd]. split; [reflexivity|].
  intros t. rewrite !current_user_run. cbn [fst]. rewrite store_of_with_blacklist.
  apply get_current_user_ext, store_of_blacklisted.
Qed.

End logout.

(** ** Logout on the concrete service *)

(** An access token signed with the service's key that carries no [sub]. *)
Definition subjectless_claims : Payload :=
  <["type" := JStr "access"]> (<["exp" := JInt 2800]> ∅).

Definition subjectless_access_token : string :=
  Reference.jose_encode subjectless_claims
    (JWTHandler.secret_key demo_handler) (JWTHandler.algorithm demo_handler).

(** X10 on the demo user's session: the logout succeeds, the access token
    is revoked for good, a second logout is refused, and a string that is
    no token is answered as before. *)
Lemma logout_revokes_presented_token_witness :
  is_Ret (@app.post_auth_logout Reference.jose Reference.uuidlib Reference.repositories
            Settings.defaults demo_access_token 1000 demo_world).1 = true
  ∧ (@app.current_user Reference.jose Reference.uuidlib Reference.repositories
       Settings.defaults demo_access_token 2000 logged_out_world).1
    = Raise (HTTPException HTTP_401_UNAUTHORIZED "Token has been revoked")
  ∧ @app.post_auth_logout Reference.jose Reference.uuidlib Reference.repositories
      Settings.defaults demo_access_token 1001 logged_out_world
    = (Raise (HTTPException HTTP_401_UNAUTHORIZED "Token has been revoked"),
       logged_out_world)
  ∧ (@app.current_user Reference.jose Reference.uuidlib Reference.repositories
       Settings.defaults "invalid.token.here" 1001 logged_out_world).1
    = (@app.current_user Reference.jose Reference.uuidlib Reference.repositories
         Settings.defaults "invalid.token.here" 1001 demo_world).1.
Proof.
  destruct (@logout_revokes_presented_token Reference.jose Reference.uuidlib
              Reference.repositories Settings.defaults demo_access_token 1000 demo_world
              (JWTHandler.access_payload demo_handler 1000 demo_user_id "jdoe"
                 "jdoe@clinic.org" false "MEDICO" (Some ["MEDICO"]))
              demo_user_id)
    as (Hok & _ & Hrevoked & Hagain & Hothers).
  - vm_compute. discriminate.
  - vm_compute. reflexivity.
  - reflexivity.
  - vm_compute. discriminate.
  - split; [exact Hok|]. split; [apply Hrevoked|]. split; [apply Hagain|].
    apply Hothers. vm_compute. discriminate.
Defined.

(** X11 on the token without a subject: the gate accepts it, logout is
    refused with 400, and the gate accepts it afterwards as well. *)
Lemma logout_needs_subject_witness :
  (@app.current_user Reference.jose Reference.uuidlib Reference.repositories
     Settings.defaults subjectless_access_token 1000 demo_world).1 = Ret subjectless_claims
  ∧ (@app.post_auth_logout Reference.jose Reference.uuidlib Reference.repositories
       Settings.defaults subjectless_access_token 1000 demo_world).1
    = Raise (HTTPException HTTP_400_BAD_REQUEST "User ID must be a non-empty string")
  ∧ (@app.current_user Reference.jose Reference.uuidlib Reference.repositories
       Settings.defaults subjectless_access_token 1001
       (@app.post_auth_logout Reference.jose Reference.uuidlib Reference.repositories
          Settings.defaults subjectless_access_token 1000 demo_world).2).1
    = (@app.current_user Reference.jose Reference.uuidlib Reference.repositories
         Settings.defaults subjectless_access_token 1001 demo_world).1.
Proof.
  assert (Hgate : (@app.current_user Reference.jose Reference.uuidlib Reference.repositories
                     Settings.defaults subjectless_access_token 1000 demo_world).1
                  = Ret subjectless_claims) by (vm_compute; reflexivity).
  destruct (@logout_needs_subject Reference.jose Reference.uuidlib Reference.repositories
              Settings.defaults subjectless_access_token 1000 demo_world
              subjectless_claims)
    as (Hrefused & Hafter).
  - vm_compute. discriminate.
  - exact Hgate.
  - intros uid Hsub. vm_compute in Hsub. discriminate.
  - split; [exact Hgate|]. split; [exact Hrefused|]. apply Hafter.
Defined.

(** ** The refresh route *)

Section refresh_outcomes.
Context `{Jose} `{Pydantic} `{Repositories}.
Implicit Types (h : JWTHandler.t) (request : string) (now : Z) (d : DB) (p : Payload)
  (u : User.t).

(** What the two [except] clauses of the route make of an exception. *)
Definition refresh_error (e : exn) : exn :=
  if isinstance_HTTPException e then e
  else HTTPException HTTP_500_INTERNAL_SERVER_ERROR
         ("Internal server error: " +:+ exn_str e).

Lemma refresh_error_is_http (e : exn) : isinstance_HTTPException (refresh_error e) = true.
Proof. unfold refresh_error. destruct e; reflexivity. Qed.

Ltac run_refresh :=
  unfold routes.refresh_token, try_except, mbind, StateRes_bind, reading, raise,
    pure_call, mret, StateRes_ret, routes.internal_server_error.

Lemma refresh_not_verified h request now d :
  JWTHandler.verify_token h request "refresh" now = Ret None →
  routes.refresh_token request h now d
  = (Raise (HTTPException HTTP_401_UNAUTHORIZED "Invalid or expired refresh token"), d).
Proof. intros Hv. run_refresh. rewrite Hv. reflexivity. Qed.

Lemma refresh_verify_raises h request now d (e : exn) :
  JWTHandler.verify_token h request "refresh" now = Raise e →
  routes.refresh_token request h now d = (Raise (refresh_error e), d).
Proof.
  intros Hv. run_refresh. rewrite Hv. unfold refresh_error.
  destruct (isinstance_HTTPException e); reflexivity.
Qed.

(** The route once the token has verified. *)
Lemma refresh_verified h request now d p :
  JWTHandler.verify_token h request "refresh" now = Ret (Some p) →
  routes.refresh_token request h now d =
    match get_by_id (p !! "sub") d with
    | Raise e => (Raise (refresh_error e), d)
    | Ret None => (Raise (HTTPException HTTP_401_UNAUTHORIZED "User not found"), d)
    | Ret (Some u) =>
        if negb (User.is_active u) then
          (Raise (HTTPException HTTP_401_UNAUTHORIZED "User account is inactive"), d)
        else
          match get_user_roles (User.id u) d with
          | Raise e => (Raise (refresh_error e), d)
          | Ret user_roles =>
              let primary_role := routes.primary_role (User.is_superuser u) user_roles in
              let role_codes := routes.role_codes (User.is_superuser u) user_roles in
              match validate_email_str (User.email u) with
              | Raise e => (Raise (refresh_error e), d)
              | Ret email =>
              (Ret {| TokenResponse.access_token :=
                        JWTHandler.create_access_token h now (uuid_str (User.id u))
                          (User.username u) (User.email u) (User.is_superuser u)
                          primary_role (Some role_codes);
                      TokenResponse.refresh_token :=
                        JWTHandler.create_refresh_token h now (uuid_str (User.id u));
                      TokenResponse.token_type := "bearer";
                      TokenResponse.expires_in :=
                        JWTHandler.access_token_expire_minutes h * 60;
                      TokenResponse.user :=
                        {| UserResponse.id := User.id u;
                           UserResponse.national_id_number := User.national_id_number u;
                           UserResponse.full_name := User.full_name u;
                           UserResponse.email := email;
                           UserResponse.phone := User.phone u;
                           UserResponse.birth_date := User.birth_date u;
                           UserResponse.address := User.address u;
                           UserResponse.role := primary_role;
                           UserResponse.roles := Some role_codes;
                           UserResponse.username := User.username u;
                           UserResponse.is_active := User.is_active u;
                           UserResponse.is_superuser := User.is_superuser u;
                           UserResponse.created_at := User.created_at u;
                           UserResponse.updated_at := User.updated_at u;
                           UserResponse.last_login := User.last_login u |} |}, d)
              end
          end
    end.
Proof.
  intros Hv. pose proof (verify_token_truthy _ _ _ _ _ Hv) as Htr.
  run_refresh. rewrite Hv, Htr. simpl.
  destruct (get_by_id (p !! "sub") d) as [[u|]|e]; simpl.
  - destruct (User.is_active u); simpl; [|reflexivity].
    destruct (get_user_roles (User.id u) d) as [user_roles|e]; simpl.
    + destruct (validate_email_str (User.email u)) as [email|e]; simpl; [reflexivity|].
      unfold refresh_error. destruct (isinstance_HTTPException e); reflexivity.
    + unfold refresh_error. destruct (isinstance_HTTPException e); reflexivity.
  - reflexivity.
  - unfold refresh_error. destruct (isinstance_HTTPException e); reflexivity.
Qed.

(** X12: the refresh route never writes to the database, and whatever goes
    wrong inside it leaves the route as an [HTTPException]. *)
Theorem refresh_route_effects h request now d :
  (routes.refresh_token request h now d).2 = d
  ∧ match (routes.refresh_token request h now d).1 with
    | Ret _ => True
    | Raise e => isinstance_HTTPException e = true
    end.
Proof.
  destruct (JWTHandler.verify_token h request "refresh" now) as [[p|]|e] eqn:Hv.
  - rewrite (refresh_verified _ _ _ _ _ Hv).
    destruct (get_by_id (p !! "sub") d) as [[u|]|e]; simpl;
      try (split; [reflexivity|]; first [reflexivity | apply refresh_error_is_http]).
    destruct (negb (User.is_active u)); simpl; [split; reflexivity|].
    destruct (get_user_roles (User.id u) d) as [user_roles|e]; simpl;
      [destruct (validate_email_str (User.email u)) as [email|e]; simpl|];
      split; first [reflexivity | exact I | apply refresh_error_is_http].
  - rewrite (refresh_not_verified _ _ _ _ Hv). split; reflexivity.
  - rewrite (refresh_verify_raises _ _ _ _ _ Hv). split;
      [reflexivity | apply refresh_error_is_http].
Qed.

(** X13: the refresh route answers 401 when the token does not verify as a
    refresh token ("Invalid or expired refresh token"), when the user its
    [sub] designates does not exist ("User not found") and when that user
    is inactive ("User account is inactive"); a repository error that is no
    [HTTPException] becomes a 500 carrying its message. *)
Theorem refresh_failure_paths h request now d :
  (JWTHandler.verify_token h request "refresh" now = Ret None →
     (routes.refresh_token request h now d).1
     = Raise (HTTPException HTTP_401_UNAUTHORIZED "Invalid or expired refresh token"))
  ∧ (∀ p, JWTHandler.verify_token h request "refresh" now = Ret (Some p) →
     get_by_id (p !! "sub") d = Ret None →
     (routes.refresh_token request h now d).1
     = Raise (HTTPException HTTP_401_UNAUTHORIZED "User not found"))
  ∧ (∀ p u, JWTHandler.verify_token h request "refresh" now = Ret (Some p) →
     get_by_id (p !! "sub") d = Ret (Some u) → User.is_active u = false →
     (routes.refresh_token request h now d).1
     = Raise (HTTPException HTTP_401_UNAUTHORIZED "User account is inactive"))
  ∧ (∀ p e, JWTHandler.verify_token h request "refresh" now = Ret (Some p) →
     get_by_id (p !! "sub") d = Raise e → isinstance_HTTPException e = false →
     (routes.refresh_token request h now d).1
     = Raise (HTTPException HTTP_500_INTERNAL_SERVER_ERROR
                ("Internal server error: " +:+ exn_str e))).
Proof.
  split; [|split; [|split]].
  - intros Hv. rewrite (refresh_not_verified _ _ _ _ Hv). reflexivity.
  - intros p Hv Hid. rewrite (refresh_verified _ _ _ _ _ Hv), Hid. reflexivity.
  - intros p u Hv Hid Hact. rewrite (refresh_verified _ _ _ _ _ Hv), Hid, Hact. reflexivity.
  - intros p e Hv Hid He. rewrite (refresh_verified _ _ _ _ _ Hv), Hid.
    unfold refresh_error. rewrite He. reflexivity.
Qed.

(** X14: take a refresh token that verifies and whose [sub] designates an
    active user whose roles can be read.  When the stored email passes the
    response model's [EmailStr] validation, the route returns a new bearer
    pair issued at the time of the request: the access token and the
    response carry the primary role and role codes resolved from the roles
    the repository holds now, the response carries the validated email, the
    token itself contributes nothing but its [sub], and the database stays
    as it was.  When the stored email fails the validation, the route
    returns no token: the validation error is no [HTTPException], and the
    route answers 500 with its message. *)
Theorem refresh_success h request now d p u (user_roles : list Role.t) :
  JWTHandler.verify_token h request "refresh" now = Ret (Some p) →
  get_by_id (p !! "sub") d = Ret (Some u) →
  User.is_active u = true →
  get_user_roles (User.id u) d = Ret user_roles →
  (∀ email, validate_email_str (User.email u) = Ret email →
     ∃ r, routes.refresh_token request h now d = (Ret r, d)
       ∧ TokenResponse.access_token r
         = JWTHandler.create_access_token h now (uuid_str (User.id u))
             (User.username u) (User.email u) (User.is_superuser u)
             (LoginUserUseCase.primary_role (User.is_superuser u) user_roles)
             (Some (LoginUserUseCase.role_codes (User.is_superuser u) user_roles))
       ∧ TokenResponse.refresh_token r
         = JWTHandler.create_refresh_token h now (uuid_str (User.id u))
       ∧ TokenResponse.token_type r = "bearer"
       ∧ TokenResponse.expires_in r = JWTHandler.access_token_expire_minutes h * 60
       ∧ UserResponse.email (TokenResponse.user r) = email
       ∧ UserResponse.role (TokenResponse.user r)
         = LoginUserUseCase.primary_role (User.is_superuser u) user_roles
       ∧ UserResponse.roles (TokenResponse.user r)
         = Some (LoginUserUseCase.role_codes (User.is_superuser u) user_roles)
       ∧ UserResponse.last_login (TokenResponse.user r) = User.last_login u)
  ∧ (∀ e, validate_email_str (User.email u) = Raise e →
       isinstance_HTTPException e = false →
       routes.refresh_token request h now d
       = (Raise (HTTPException HTTP_500_INTERNAL_SERVER_ERROR
                   ("Internal server error: " +:+ exn_str e)), d)).
Proof.
  intros Hv Hid Hact Hroles.
  rewrite (refresh_verified _ _ _ _ _ Hv), Hid, Hact, Hroles. simpl. split.
  - intros email ->. eexists. split; [reflexivity|]. repeat split; reflexivity.
  - intros e -> He. unfold refresh_error. rewrite He. reflexivity.
Qed.

End refresh_outcomes.

(** ** The refresh route on the concrete database *)

(** Refresh tokens signed with the service's key: for a user id that is
    not in the database, for the inactive user, and one with no [sub]. *)
Definition unknown_user_refresh_token : string :=
  @JWTHandler.create_refresh_token Reference.jose demo_handler 1000
    (Reference.pos_to_string 77).

Definition gone_refresh_token : string :=
  @JWTHandler.create_refresh_token Reference.jose demo_handler 1000
    (Reference.pos_to_string 6).

Definition subjectless_refresh_token : string :=
  Reference.jose_encode (<["type" := JStr "refresh"]> (<["exp" := JInt 9000]> ∅))
    (JWTHandler.secret_key demo_handler) (JWTHandler.algorithm demo_handler).

(** X13 on an access token presented for refresh and on the three tokens
    above. *)
Lemma refresh_failure_paths_witness :
  (@routes.refresh_token Reference.jose Reference.pydantic Reference.uuidlib Reference.repositories
     demo_access_token demo_handler 1001 demo_db).1
  = Raise (HTTPException HTTP_401_UNAUTHORIZED "Invalid or expired refresh token")
  ∧ (@routes.refresh_token Reference.jose Reference.pydantic Reference.uuidlib Reference.repositories
       unknown_user_refresh_token demo_handler 1001 demo_db).1
    = Raise (HTTPException HTTP_401_UNAUTHORIZED "User not found")
  ∧ (@routes.refresh_token Reference.jose Reference.pydantic Reference.uuidlib Reference.repositories
       gone_refresh_token demo_handler 1001 demo_db).1
    = Raise (HTTPException HTTP_401_UNAUTHORIZED "User account is inactive")
  ∧ (@routes.refresh_token Reference.jose Reference.pydantic Reference.uuidlib Reference.repositories
       subjectless_refresh_token demo_handler 1001 demo_db).1
    = Raise (HTTPException HTTP_500_INTERNAL_SERVER_ERROR
               ("Internal server error: "
                +:+ "one of the hex, bytes, bytes_le, fields, or int arguments must be given")).
Proof.
  split; [|split; [|split]].
  - apply (@refresh_failure_paths Reference.jose Reference.pydantic Reference.uuidlib Reference.repositories).
    vm_compute. reflexivity.
  - eapply (@refresh_failure_paths Reference.jose Reference.pydantic Reference.uuidlib Reference.repositories).
    + vm_compute. reflexivity.
    + vm_compute. reflexivity.
  - eapply (@refresh_failure_paths Reference.jose Reference.pydantic Reference.uuidlib Reference.repositories)
      with (u := gone).
    + vm_compute. reflexivity.
    + vm_compute. reflexivity.
    + reflexivity.
  - eapply (@refresh_failure_paths Reference.jose Reference.pydantic Reference.uuidlib Reference.repositories
              demo_handler subjectless_refresh_token 1001 demo_db)
      with (e := Exception
                   "one of the hex, bytes, bytes_le, fields, or int arguments must be given").
    + vm_compute. reflexivity.
    + vm_compute. reflexivity.
    + reflexivity.
Defined.

(** A refresh token issued to the administrator of [local_db]. *)
Definition local_admin_refresh_token : string :=
  @JWTHandler.create_refresh_token Reference.jose demo_handler 1000
    (Reference.pos_to_string 7).

(** X14 on the demo user's refresh token, one second after it was issued,
    and on the administrator's, whose address the response model rejects. *)
Lemma refresh_success_witness :
  (∃ r : @TokenResponse.t Reference.uuidlib,
    @routes.refresh_token Reference.jose Reference.pydantic Reference.uuidlib Reference.repositories
      demo_refresh_token demo_handler 1001 demo_db = (Ret r, demo_db)
    ∧ TokenResponse.access_token r
      = @JWTHandler.create_access_token Reference.jose demo_handler 1001
          (@uuid_str Reference.uuidlib (User.id jdoe))
          (User.username jdoe) (User.email jdoe) (User.is_superuser jdoe)
          (LoginUserUseCase.primary_role (User.is_superuser jdoe) [demo_role 9 "MEDICO" true])
          (Some (LoginUserUseCase.role_codes (User.is_superuser jdoe)
                   [demo_role 9 "MEDICO" true]))
    ∧ TokenResponse.refresh_token r
      = @JWTHandler.create_refresh_token Reference.jose demo_handler 1001
          (@uuid_str Reference.uuidlib (User.id jdoe))
    ∧ TokenResponse.token_type r = "bearer"
    ∧ TokenResponse.expires_in r = JWTHandler.access_token_expire_minutes demo_handler * 60
    ∧ UserResponse.email (TokenResponse.user r) = "jdoe@clinic.org"
    ∧ UserResponse.role (TokenResponse.user r)
      = LoginUserUseCase.primary_role (User.is_superuser jdoe) [demo_role 9 "MEDICO" true]
    ∧ UserResponse.roles (TokenResponse.user r)
      = Some (LoginUserUseCase.role_codes (User.is_superuser jdoe)
                [demo_role 9 "MEDICO" true])
    ∧ UserResponse.last_login (TokenResponse.user r) = User.last_login jdoe)
  ∧ @routes.refresh_token Reference.jose Reference.pydantic Reference.uuidlib Reference.repositories
      local_admin_refresh_token demo_handler 1001 local_db
    = (Raise (HTTPException HTTP_500_INTERNAL_SERVER_ERROR
                ("Internal server error: " +:+ "value is not a valid email address")),
       local_db).
Proof.
  split.
  - apply (@refresh_success Reference.jose Reference.pydantic Reference.uuidlib
             Reference.repositories demo_handler demo_refresh_token 1001 demo_db
             (JWTHandler.refresh_payload demo_handler 1000 demo_user_id) jdoe
             [demo_role 9 "MEDICO" true]).
    + vm_compute. reflexivity.
    + vm_compute. reflexivity.
    + reflexivity.
    + reflexivity.
    + reflexivity.
  - apply (@refresh_success Reference.jose Reference.pydantic Reference.uuidlib
             Reference.repositories demo_handler local_admin_refresh_token 1001 local_db
             (JWTHandler.refresh_payload demo_handler 1000 (Reference.pos_to_string 7))
             local_admin [])
      with (e := ValueError "value is not a valid email address").
    + vm_compute. reflexivity.
    + vm_compute. reflexivity.
    + reflexivity.
    + reflexivity.
    + reflexivity.
    + reflexivity.
Defined.

(** ** The validate endpoint *)

Section validate_endpoint.
Context `{Jose} `{Pydantic} `{Repositories}.

(** X15: the validate endpoint never fails and never looks at the state of
    the service: for every token it returns a validation response and
    leaves the state as it was, and the response is the same in every
    state, whatever the revocation store holds. *)
Theorem validate_endpoint_total_and_blind (settings : Settings.t) (token : string)
    (now : Z) (w : app.World) :
  ∃ r, app.post_auth_validate settings token now w = (Ret r, w)
       ∧ ∀ w', app.post_auth_validate settings token now w' = (Ret r, w').
Proof.
  unfold app.post_auth_validate, pure_call, routes.validate_token.
  destruct (execute_never_raises (dependencies.get_jwt_handler settings) token now)
    as [r Hr].
  rewrite Hr. exists r. split; [reflexivity|]. intros w'. reflexivity.
Qed.

End validate_endpoint.

(** X15 on the demo session: after the logout the gate rejects the access
    token, while the validate endpoint still reports it valid. *)
Lemma validate_endpoint_total_and_blind_witness :
  (@app.current_user Reference.jose Reference.uuidlib Reference.repositories
     Settings.defaults demo_access_token 1001 logged_out_world).1
  = Raise (HTTPException HTTP_401_UNAUTHORIZED "Token has been revoked")
  ∧ ∃ r : @TokenValidationResponse.t Reference.uuidlib,
      @app.post_auth_validate Reference.jose Reference.pydantic Reference.uuidlib
        Reference.repositories Settings.defaults demo_access_token 1001 logged_out_world
      = (Ret r, logged_out_world)
      ∧ @app.post_auth_validate Reference.jose Reference.pydantic Reference.uuidlib
          Reference.repositories Settings.defaults demo_access_token 1001 demo_world
        = (Ret r, demo_world)
      ∧ TokenValidationResponse.valid r = true.
Proof.
  split; [vm_compute; reflexivity|].
  destruct (@validate_endpoint_total_and_blind Reference.jose Reference.pydantic
              Reference.uuidlib Reference.repositories Settings.defaults
              demo_access_token 1001 demo_world) as (r & Hr & Hall).
  exists r. split; [apply Hall|]. split; [exact Hr|].
  assert (Hrun : (@app.post_auth_validate Reference.jose Reference.pydantic
                    Reference.uuidlib Reference.repositories Settings.defaults
                    demo_access_token 1001 demo_world).1
                 = Ret (@TokenValidationResponse.Build_t Reference.uuidlib
                          true (Some 5%positive) (Some "jdoe") (Some "jdoe@clinic.org")
                          false (Some "Token is valid")))
    by (vm_compute; reflexivity).
  rewrite Hr in Hrun. simpl in Hrun. injection Hrun as ->. reflexivity.
Defined.

(** ** The role list of a user *)

Section user_roles_facts.
Context `{UuidLib}.
Implicit Types (u : User.t) (r : uuid) (l : list uuid) (now : Z).

Lemma list_remove_other r r' l : r' ≠ r → r' ∈ list_remove r l ↔ r' ∈ l.
Proof.
  intros Hne. induction l as [|y l IH]; simpl; [reflexivity|].
  case_bool_decide as Hy.
  - subst y. rewrite elem_of_cons. split; [auto|]. intros [Heq|Hin]; [contradiction|exact Hin].
  - rewrite !elem_of_cons, IH. reflexivity.
Qed.

Lemma list_remove_absent r l : r ∉ l → list_remove r l = l.
Proof.
  induction l as [|y l IH]; simpl; [reflexivity|].
  intros Hnotin. apply not_elem_of_cons in Hnotin as [Hne Hnotin].
  rewrite bool_decide_eq_false_2 by congruence. rewrite (IH Hnotin). reflexivity.
Qed.

Lemma list_remove_NoDup r l : NoDup l → NoDup (list_remove r l) ∧ r ∉ list_remove r l.
Proof.
  induction l as [|y l IH]; simpl; intros Hnd.
  - split; [constructor|apply not_elem_of_nil].
  - apply NoDup_cons in Hnd as [Hy Hnd]. destruct (IH Hnd) as [IH1 IH2].
    case_bool_decide as Heq.
    + subst y. split; assumption.
    + split.
      * apply NoDup_cons. split; [|exact IH1].
        intros Hin. apply Hy. apply (list_remove_other r y l); congruence.
      * apply not_elem_of_cons. split; [congruence|exact IH2].
Qed.

Lemma list_remove_appended r l : r ∉ l → list_remove r (l ++ [r]) = l.
Proof.
  induction l as [|y l IH]; simpl; intros Hnotin.
  - rewrite bool_decide_eq_true_2 by reflexivity. reflexivity.
  - apply not_elem_of_cons in Hnotin as [Hne Hnotin].
    rewrite bool_decide_eq_false_2 by congruence. rewrite (IH Hnotin). reflexivity.
Qed.

(** X16: [add_role] appends a role the user does not have and stamps the
    change; on a role the user has it changes nothing, not even the
    timestamp.  Afterwards [has_role] holds for the role, the other roles
    are as before, and a duplicate-free role list stays duplicate-free. *)
Theorem add_role_properties u r now :
  has_role (add_role u r now) r = true
  ∧ (has_role u r = true → add_role u r now = u)
  ∧ (has_role u r = false →
     User.role_ids (add_role u r now) = User.role_ids u ++ [r]
     ∧ User.updated_at (add_role u r now) = now)
  ∧ (∀ r', r' ≠ r → has_role (add_role u r now) r' = has_role u r')
  ∧ (NoDup (User.role_ids u) → NoDup (User.role_ids (add_role u r now))).
Proof.
  unfold add_role, has_role.
  destruct (decide (r ∈ User.role_ids u)) as [Hin|Hnotin].
  - rewrite (bool_decide_eq_false_2 (r ∉ User.role_ids u)) by (intros Hn; exact (Hn Hin)).
    rewrite (bool_decide_eq_true_2 _ Hin).
    repeat split; try reflexivity; try discriminate. intros Hnd. exact Hnd.
  - rewrite (bool_decide_eq_true_2 (r ∉ User.role_ids u) Hnotin).
    rewrite (bool_decide_eq_false_2 _ Hnotin). cbn [with_role_ids User.role_ids User.updated_at].
    split.
    { apply bool_decide_eq_true. apply elem_of_app. right.
      apply list_elem_of_singleton. reflexivity. }
    split; [discriminate|]. split; [intros _; split; reflexivity|]. split.
    + intros r' Hne. apply eq_true_iff_eq. rewrite !bool_decide_eq_true.
      rewrite elem_of_app, list_elem_of_singleton. tauto.
    + intros Hnd. apply NoDup_app. split; [exact Hnd|]. split.
      * intros x Hx Hx'. apply list_elem_of_singleton in Hx'. subst x. contradiction.
      * apply NoDup_singleton.
Qed.

(** X17: on a user whose role list has no duplicates, [remove_role] leaves
    a duplicate-free list in which [has_role] no longer holds for the role
    removed and holds for every other role as before; removing a role the
    user does not have changes nothing, and removing a role just added to a
    user who did not have it gives back the old role list. *)
Theorem remove_role_properties u r now now' :
  NoDup (User.role_ids u) →
  NoDup (User.role_ids (remove_role u r now))
  ∧ has_role (remove_role u r now) r = false
  ∧ (∀ r', r' ≠ r → has_role (remove_role u r now) r' = has_role u r')
  ∧ (has_role u r = false → remove_role u r now = u)
  ∧ (has_role u r = false →
     User.role_ids (remove_role (add_role u r now) r now') = User.role_ids u).
Proof.
  intros Hnd. unfold remove_role at 1 2 3 4. unfold has_role.
  destruct (decide (r ∈ User.role_ids u)) as [Hin|Hnotin].
  - rewrite (bool_decide_eq_true_2 _ Hin). cbn [with_role_ids User.role_ids].
    destruct (list_remove_NoDup r _ Hnd) as [Hnd' Hgone].
    split; [exact Hnd'|]. split; [apply bool_decide_eq_false_2, Hgone|].
    split; [|split; discriminate].
    intros r' Hne. apply eq_true_iff_eq. rewrite !bool_decide_eq_true.
    apply list_remove_other, Hne.
  - rewrite (bool_decide_eq_false_2 _ Hnotin).
    split; [exact Hnd|]. split; [apply bool_decide_eq_false_2, Hnotin|].
    split; [reflexivity|]. split; [reflexivity|].
    intros _. unfold remove_role, add_role.
    rewrite (bool_decide_eq_true_2 (r ∉ User.role_ids u) Hnotin).
    cbn [with_role_ids User.role_ids].
    rewrite bool_decide_eq_true_2
      by (apply elem_of_app; right; apply list_elem_of_singleton; reflexivity).
    cbn [with_role_ids User.role_ids]. apply list_remove_appended, Hnotin.
Qed.

End user_roles_facts.

(** X17 on jdoe, who has no roles yet: role 9 is added at second 10 and
    removed at second 20.  With a role list that holds a role twice,
    [remove_role] takes out one occurrence only. *)
Lemma remove_role_properties_witness :
  @User.role_ids Reference.uuidlib
    (@remove_role Reference.uuidlib (@add_role Reference.uuidlib jdoe 9%positive 10)
       9%positive 20) = []
  ∧ @has_role Reference.uuidlib
      (@remove_role Reference.uuidlib (@add_role Reference.uuidlib jdoe 9%positive 10)
         9%positive 20) 9%positive = false.
Proof.
  split.
  - apply (@remove_role_properties Reference.uuidlib jdoe 9%positive 10 20).
    + constructor.
    + reflexivity.
  - apply (@remove_role_properties Reference.uuidlib
             (@add_role Reference.uuidlib jdoe 9%positive 10) 9%positive 20 20).
    apply (bool_decide_unpack _). vm_compute. exact I.
Defined.

Example remove_role_one_occurrence :
  @has_role Reference.uuidlib
    (@remove_role Reference.uuidlib
       (@with_role_ids Reference.uuidlib jdoe [9%positive; 9%positive] 0) 9%positive 20)
    9%positive = true.
Proof. vm_compute. reflexivity. Qed.

(** X16 on jdoe: role 9 is added at second 10; adding it again at second
    30 changes nothing. *)
Lemma add_role_properties_witness :
  @User.role_ids Reference.uuidlib (@add_role Reference.uuidlib jdoe 9%positive 10)
  = [] ++ [9%positive]
  ∧ @User.updated_at Reference.uuidlib (@add_role Reference.uuidlib jdoe 9%positive 10) = 10
  ∧ @add_role Reference.uuidlib (@add_role Reference.uuidlib jdoe 9%positive 10) 9%positive 30
    = @add_role Reference.uuidlib jdoe 9%positive 10.
Proof.
  destruct (@add_role_properties Reference.uuidlib jdoe 9%positive 10)
    as (_ & _ & Hnew & _).
  destruct (@add_role_properties Reference.uuidlib
              (@add_role Reference.uuidlib jdoe 9%positive 10) 9%positive 30)
    as (_ & Hsame & _).
  destruct (Hnew eq_refl) as [Hids Hstamp].
  split; [exact Hids|]. split; [exact Hstamp|]. apply Hsame. reflexivity.
Defined.

(** ** The tokens of a login at the gate *)

Section login_tokens_at_gate.
Context `{Jose} `{PasswordContext} `{Pydantic} `{Repositories}.

(** X18: under the round-trip contract of the library, the access token a
    successful login returns is accepted by the gate at any time up to its
    expiry, as long as it is not blacklisted, with claims that name the
    user and the primary role of the response; its email claim is the
    stored address, of which the response carries the validated form.  The
    refresh token of the same login is refused by the gate as invalid. *)
Theorem login_tokens_at_gate (h : JWTHandler.t) (request : LoginRequest.t) (now t : Z)
    (d d' : DB) (r : TokenResponse.t) (blacklist : TokenBlacklist.t) :
  jose_round_trip (JWTHandler.secret_key h) (JWTHandler.algorithm h) →
  LoginUserUseCase.execute h request now d = (Ret r, d') →
  t ≤ now + 60 * JWTHandler.access_token_expire_minutes h →
  t ≤ now + 86400 * JWTHandler.refresh_token_expire_days h →
  TokenBlacklist.is_blacklisted blacklist (TokenResponse.access_token r) = false →
  TokenBlacklist.is_blacklisted blacklist (TokenResponse.refresh_token r) = false →
  (∃ p, dependencies.get_current_user (TokenResponse.access_token r) h blacklist t = Ret p
        ∧ p !! "sub" = Some (JStr (uuid_str (UserResponse.id (TokenResponse.user r))))
        ∧ p !! "username" = Some (JStr (UserResponse.username (TokenResponse.user r)))
        ∧ (∃ email, p !! "email" = Some (JStr email)
                    ∧ validate_email_str email
                      = Ret (UserResponse.email (TokenResponse.user r)))
        ∧ p !! "is_superuser" = Some (JBool (UserResponse.is_superuser (TokenResponse.user r)))
        ∧ p !! "role" = Some (JStr (UserResponse.role (TokenResponse.user r))))
  ∧ dependencies.get_current_user (TokenResponse.refresh_token r) h blacklist t
    = Raise (HTTPException HTTP_401_UNAUTHORIZED "Invalid or expired token").
Proof.
  intros Hrt Hex Ha Hr Hba Hbr.
  destruct (login_success_inv _ _ _ _ _ _ Hex) as (u & Hloc & Hact & Hpw).
  rewrite (login_after_checks _ _ _ _ _ Hloc Hact Hpw) in Hex.
  destruct (update (User.update_last_login u now) d) as [[u'|e] d1]; [|discriminate].
  destruct (get_user_roles (User.id u) d1) as [user_roles|e]; [|discriminate].
  cbv zeta in Hex.
  destruct (validate_email_str (User.email u)) as [email|e] eqn:Hval; [|discriminate].
  injection Hex as <- <-. cbn [TokenResponse.access_token
    TokenResponse.refresh_token TokenResponse.user UserResponse.id UserResponse.username
    UserResponse.email UserResponse.is_superuser UserResponse.role] in *.
  set (primary := LoginUserUseCase.primary_role (User.is_superuser u) user_roles) in *.
  set (codes := LoginUserUseCase.role_codes (User.is_superuser u) user_roles) in *.
  pose proof (verify_issued_access h now t (uuid_str (User.id u)) (User.username u)
                (User.email u) (User.is_superuser u) primary (Some codes) "access" Hrt Ha)
    as Hva.
  pose proof (verify_issued_refresh h now t (uuid_str (User.id u)) "access" Hrt Hr) as Hvr.
  rewrite bool_decide_eq_true_2 in Hva by reflexivity.
  rewrite bool_decide_eq_false_2 in Hvr by discriminate.
  split.
  - exists (JWTHandler.access_payload h now (uuid_str (User.id u)) (User.username u)
              (User.email u) (User.is_superuser u) primary (Some codes)).
    split.
    + unfold dependencies.get_current_user. rewrite Hba, Hva. simpl.
      pose proof (verify_token_truthy _ _ _ _ _ Hva) as Htr. simpl in Htr.
      rewrite Htr. reflexivity.
    + pose proof (access_payload_lookup h now (uuid_str (User.id u)) (User.username u)
                    (User.email u) (User.is_superuser u) primary (Some codes))
        as (Hsub & Hun & Hem & Hsu & Hrole & _).
      cbv zeta in Hsub, Hun, Hem, Hsu, Hrole.
      split; [exact Hsub|]. split; [exact Hun|].
      split; [exists (User.email u); split; [exact Hem|exact Hval]|].
      split; [exact Hsu|exact Hrole].
  - unfold dependencies.get_current_user. rewrite Hbr, Hvr. reflexivity.
Qed.

End login_tokens_at_gate.

Lemma login_jdoe_runs :
  ∃ r : @TokenResponse.t Reference.uuidlib,
    @LoginUserUseCase.execute Reference.jose Reference.passlib Reference.pydantic Reference.uuidlib
      Reference.repositories demo_handler (login_request "jdoe" "Correct1!") 1000 demo_db
    = (Ret r, demo_db_after_login)
    ∧ TokenResponse.access_token r = demo_access_token
    ∧ TokenResponse.refresh_token r = demo_refresh_token.
Proof. eexists. split; [vm_compute; reflexivity|]. split; vm_compute; reflexivity. Qed.

(** A user whose stored address has capitals in its domain. *)
Definition maria : @User.t Reference.uuidlib :=
  demo_user 11 "maria" "maria@Clinic.ORG" "hashed:Correct1!" true false.

Definition maria_db : Reference.Database :=
  {| Reference.users := [maria]; Reference.assigned := [] |}.

Definition maria_login : res (@TokenResponse.t Reference.uuidlib) :=
  (@LoginUserUseCase.execute Reference.jose Reference.passlib Reference.pydantic
     Reference.uuidlib Reference.repositories demo_handler
     (login_request "maria" "Correct1!") 1000 maria_db).1.

(** The email claim of the token is the stored address, the email of the
    response its normal form: the two differ for [maria]. *)
Example login_email_claim_is_stored_address :
  ∃ r p, maria_login = Ret r
    ∧ @dependencies.get_current_user Reference.jose (TokenResponse.access_token r)
        demo_handler (TokenBlacklist.init 0) 1600 = Ret p
    ∧ p !! "email" = Some (JStr "maria@Clinic.ORG")
    ∧ UserResponse.email (TokenResponse.user r) = "maria@clinic.org".
Proof.
  eexists. eexists. split; [vm_compute; reflexivity|].
  split; [vm_compute; reflexivity|]. split; vm_compute; reflexivity.
Qed.

(** X18 on jdoe's login: the gate, ten minutes later and with an empty
    blacklist, accepts the access token and refuses the refresh token. *)
Lemma login_tokens_at_gate_witness :
  (∃ p, @dependencies.get_current_user Reference.jose demo_access_token demo_handler
          (TokenBlacklist.init 0) 1600 = Ret p
        ∧ p !! "role" = Some (JStr "MEDICO"))
  ∧ @dependencies.get_current_user Reference.jose demo_refresh_token demo_handler
      (TokenBlacklist.init 0) 1600
    = Raise (HTTPException HTTP_401_UNAUTHORIZED "Invalid or expired token").
Proof.
  destruct login_jdoe_runs as (r & Hrun & Haccess & Hrefresh).
  destruct (@login_tokens_at_gate Reference.jose Reference.passlib Reference.pydantic Reference.uuidlib
              Reference.repositories demo_handler (login_request "jdoe" "Correct1!")
              1000 1600 demo_db demo_db_after_login r (TokenBlacklist.init 0))
    as ((p & Hgate & _ & _ & _ & _ & Hrole) & Hrefused).
  - apply reference_jose_round_trip.
  - exact Hrun.
  - vm_compute. discriminate.
  - vm_compute. discriminate.
  - apply fresh_store_holds_nothing.
  - apply fresh_store_holds_nothing.
  - rewrite Haccess in Hgate. rewrite Hrefresh in Hrefused.
    split; [|exact Hrefused]. exists p. split; [exact Hgate|].
    rewrite Hrole.
    assert (Hr : UserResponse.role (TokenResponse.user r) = "MEDICO").
    { vm_compute in Hrun. injection Hrun as <-. reflexivity. }
    rewrite Hr. reflexivity.
Defined.
